(** * GitLens quick-pick and diff commands: a shallow embedding

    The source units embedded are:
    - [src/quickPicks/commitFileDetails.ts]: the two quick-pick item
      constructors and [CommitFileDetailsQuickPick.show];
    - [src/views/stashFileNode.ts]: the templates of the stash file node;
    - the editor command [DiffLineWithPreviousCommand.execute].

    Both are asynchronous glue over a git service and the editor.  A call
    into either collaborator is an _effect_: it appends an event to a trace
    and continues with the collaborator's answer, which may be a thrown
    exception (a rejected promise).  Objects that the code mutates through
    aliases (the commit objects) live in a heap of references. *)

From Stdlib Require Import String List ZArith Bool Lia.
Import ListNotations.
Open Scope string_scope.

(** ** Effects: state, trace and exceptions *)

Module Effects.

(** The result of awaiting a promise: a value, or a rejection.  The
    exception object itself is not modelled. *)
Inductive Outcome (A : Type) : Type :=
| Ok (a : A)
| Throw.
Arguments Ok {A} a.
Arguments Throw {A}.

(** A computation over a world [W]. *)
Definition M (W A : Type) : Type := W -> Outcome A * W.

Definition ret {W A} (a : A) : M W A := fun w => (Ok a, w).

Definition throw {W A} : M W A := fun w => (Throw, w).

Definition bind {W A B} (m : M W A) (k : A -> M W B) : M W B :=
  fun w =>
    match m w with
    | (Ok a, w1) => k a w1
    | (Throw, w1) => (Throw, w1)
    end.

(** [try { m } catch (ex) { handler }] *)
Definition try_catch {W A} (m : M W A) (handler : M W A) : M W A :=
  fun w =>
    match m w with
    | (Ok a, w1) => (Ok a, w1)
    | (Throw, w1) => handler w1
    end.

End Effects.

Import Effects.

Declare Scope js_scope.
Delimit Scope js_scope with js.
Notation "x <- c ;; k" := (bind c (fun x => k))
  (at level 61, c at next level, right associativity) : js_scope.
Notation "c ;;; k" := (bind c (fun _ => k))
  (at level 61, right associativity) : js_scope.

(** ** JavaScript values *)

(** Truthiness of an optional string: [undefined] and [''] are falsy. *)
Definition truthy (s : option string) : bool :=
  match s with
  | Some v => negb (String.eqb v "")
  | None => false
  end.

(** [s === undefined] *)
Definition is_undefined {A} (s : option A) : bool :=
  match s with
  | Some _ => false
  | None => true
  end.

(** A template literal prints an absent value as the text [undefined]. *)
Definition interpolate (s : option string) : string :=
  match s with
  | Some v => v
  | None => "undefined"
  end.

(** [a || b] on strings. *)
Definition or_else (a : option string) (b : string) : string :=
  if truthy a then interpolate a else b.

(** The value of a truthy optional string ([s && ...]), if there is one. *)
Definition truthy_value (s : option string) : option string :=
  match s with
  | Some v => if String.eqb v "" then None else Some v
  | None => None
  end.

(** Template literals are written as the list of their pieces. *)
Definition cat (pieces : list string) : string := String.concat "" pieces.

(** ** [src/quickPicks/commitFileDetails.ts] *)

Module CommitFileDetails.

(** Objects are held by reference. *)
Definition loc : Type := nat.

(** Modelled from the spec: the [GitCommitType] enumeration of
    [../gitService], which is not among the sources.  The spec
    distinguishes "stash vs. regular commit"; the code only ever compares
    with [GitCommitType.Stash]. *)
Inductive GitCommitType : Type :=
| Regular
| Stash.

(** The data fields of a [GitLogCommit] that the code reads or writes.
    Optional fields are [option]s; the computed members (getters and
    methods) of the class are in [Externals] below. *)
Record GitLogCommit : Type := {
  type : GitCommitType;
  sha : string;
  repoPath : string;
  fileName : string;
  originalFileName : option string;
  workingFileName : option string;
  status : option string;
  previousSha : option string;
  previousFileName : option string;
  nextSha : option string;
  nextFileName : option string;
  author : string;
  message : string
}.

(** [commit.type === GitCommitType.Stash] *)
Definition isStash (c : GitLogCommit) : bool :=
  match type c with
  | Stash => true
  | Regular => false
  end.

(** [c.nextSha = s; c.nextFileName = f] *)
Definition set_next (s f : option string) (c : GitLogCommit) : GitLogCommit :=
  {| type := type c; sha := sha c; repoPath := repoPath c;
     fileName := fileName c; originalFileName := originalFileName c;
     workingFileName := workingFileName c; status := status c;
     previousSha := previousSha c; previousFileName := previousFileName c;
     nextSha := s; nextFileName := f;
     author := author c; message := message c |}.

(** A [GitLog]: [commits] is a JavaScript [Map] from sha to commit object,
    kept in insertion order. *)
Record GitLog : Type := {
  commits : list (string * loc);
  truncated : bool;
  log_sha : option string
}.

(** [log.commits.get(key)] *)
Fixpoint commits_get (m : list (string * loc)) (key : string) : option loc :=
  match m with
  | [] => None
  | (k, v) :: rest => if String.eqb k key then Some v else commits_get rest key
  end.

(** [log.commits.values()] *)
Definition commits_values (m : list (string * loc)) : list loc := map snd m.

(** Uris are immutable values built by the editor and by the git layer;
    each way of building one that the code uses is kept as a constructor. *)
Inductive Uri : Type :=
| Uri_file (path : string)                     (* Uri.file(path) *)
| CommitUri (c : GitLogCommit)                 (* commit.uri *)
| CommitPreviousUri (c : GitLogCommit)         (* commit.previousUri *)
| CommitNextUri (c : GitLogCommit)             (* commit.nextUri *)
| GitUri (uri : Uri) (c : GitLogCommit)        (* new GitUri(uri, commit) *)
| GitContentUri (sha fileName : option string) (repoPath : string)
                (originalFileName : option string)
                                               (* GitService.toGitContentUri(sha, fileName, repoPath, originalFileName) *)
| GitContentUriOfCommit (c : GitLogCommit).    (* GitService.toGitContentUri(commit) *)

Inductive Commands : Type :=
| ShowQuickCommitDetails
| DiffWithPrevious
| DiffWithWorking
| CopyShaToClipboard
| CopyMessageToClipboard
| ShowQuickFileHistory
| ShowQuickCommitFileDetails.

Record QuickPickItem : Type := {
  label : string;
  description : string
}.

Record GitRemote : Type := {
  provider : option string
}.

Record GitBranch : Type := {
  name : string
}.

Inductive RemoteResource : Type :=
| FileResource (fileName : string) (branch : string)
| RevisionResource (fileName : string) (commit : loc).

Set Warnings "-register-all".

(** Quick-pick items and the argument lists of the commands they run.  An
    argument that is an object ([commit]) is a reference; strings taken from
    it ([sha], [message]) are the values at construction time. *)
Inductive CommandQuickPickItem : Type :=
| MkCommandQuickPickItem (item : QuickPickItem) (command : Commands)
                         (args : CommandArgs)
| MkOpenFileCommandQuickPickItem (uri : Uri) (item : QuickPickItem)
| MkOpenRemotesCommandQuickPickItem (remotes : list GitRemote)
                                    (resource : RemoteResource)
                                    (goBackCommand : option CommandQuickPickItem)
| MkKeyCommandQuickPickItem (command : Commands) (args : CommandArgs)
with CommandArgs : Type :=
| ShowQuickCommitDetailsCommandArgs
    (uri : Uri) (commit : loc) (sha : string)
    (goBackCommand : option CommandQuickPickItem)
| DiffWithPreviousCommandArgs (uri : Uri) (commit : loc)
| DiffWithWorkingCommandArgs (uri : Uri) (commit : loc)
| CopyShaToClipboardCommandArgs (uri : Uri) (sha : string)
| CopyMessageToClipboardCommandArgs (uri : Uri) (message sha : string)
| ShowQuickFileHistoryCommandArgs
    (uri : Uri) (fileLog : option GitLog)
    (goBackCommand : option CommandQuickPickItem)
| ShowQuickCommitFileDetailsCommandArgs
    (uri : Uri) (fileLog : option GitLog) (sha : string)
    (goBackCommand : option CommandQuickPickItem).

(** [KeyCommand]: a quick-pick item, or the constant [KeyNoopCommand]. *)
Inductive KeyCommand : Type :=
| KeyNoopCommand
| KeyItem (item : CommandQuickPickItem).

(** The two closures [async () => ...] that [show] creates, with the
    variables they capture ([git] is shared by the whole unit). *)
Inductive Closure : Type :=
| PreviousCommandFn (commit : loc) (uri : Uri)
                    (goBackCommand : option CommandQuickPickItem)
                    (fileLog : option GitLog)
| NextCommandFn (commit : loc) (uri : Uri)
                (goBackCommand : option CommandQuickPickItem)
                (fileLog : option GitLog).

(** [KeyCommand | (() => Promise<KeyCommand>)] *)
Inductive KeyBinding : Type :=
| KeyStatic (item : CommandQuickPickItem)
| KeyLazy (f : Closure).

(** The mapping passed to [Keyboard.instance.beginScope]. *)
Record KeyMapping : Type := {
  left : option CommandQuickPickItem;
  comma : option KeyBinding;
  dot : option KeyBinding
}.

(** [onDidSelectItem]: the one callback the code installs. *)
Inductive SelectCallback : Type :=
| SetRightKeyCommand.     (* item => scope.setKeyCommand('right', item) *)

Record QuickPickOptions : Type := {
  matchOnDescription : bool;
  placeHolder : string;
  ignoreFocusOut : bool;
  onDidSelectItem : SelectCallback
}.

(** Calls into the git service and into the editor. *)
Inductive Event : Type :=
| GetLogCommit (sha : option string) (fileName : string) (previous : bool)
| GetLogForFile (repoPath fileName sha : string) (maxCount : Z)
| FindNextCommit (repoPath fileName sha : string)
| GetRemotes (repoPath : string)
| GetBranch (repoPath : string)
| BeginScope (mapping : KeyMapping)
| ShowQuickPick (items : list CommandQuickPickItem) (options : QuickPickOptions)
| ScopeDispose.

Record World : Type := {
  heap : loc -> GitLogCommit;
  trace : list Event
}.

(** The git service, as the answers it gives.  Commit objects it returns
    are references into the heap. *)
Record GitService : Type := {
  getLogCommit : option string -> string -> bool -> Outcome (option loc);
  getLogForFile : string -> string -> string -> Z -> Outcome (option GitLog);
  findNextCommit : string -> string -> string -> Outcome (option loc);
  getRemotes : string -> Outcome (list GitRemote);
  getBranch : string -> Outcome (option GitBranch);
  git_repoPath : string;                      (* git.repoPath *)
  maxQuickHistory : Z                         (* git.config.advanced.maxQuickHistory *)
}.

(** The editor: key scopes and the quick-pick widget. *)
Record Editor : Type := {
  beginScope : KeyMapping -> Outcome unit;
  showQuickPick : list CommandQuickPickItem -> QuickPickOptions ->
                  Outcome (option CommandQuickPickItem);
  dispose : Outcome unit
}.

(** Members of imported modules and classes whose code is not among the
    sources; the embedding is parametric in them. *)
Record Externals : Type := {
  path_basename : string -> string;
  path_resolve : string -> string -> string;
  Strings_pad : string -> nat -> nat -> string;
  GlyphChars_Dash : string;
  GlyphChars_Dot : string;
  GlyphChars_Space : string;
  GlyphChars_ArrowRightHollow : string;
  fsPath : Uri -> string;
  isUncommitted : GitLogCommit -> bool;
  isMerge : GitLogCommit -> bool;
  shortSha : GitLogCommit -> string;
  previousShortSha : GitLogCommit -> option string;
  getFormattedPath : GitLogCommit -> string;
  fromNow : GitLogCommit -> string;
  Iterables_first : list loc -> option loc;
  getQuickPickIgnoreFocusOut : bool
}.

Definition JS := M World.

(** Reading an object. *)
Definition deref (l : loc) : JS GitLogCommit :=
  fun w => (Ok (heap w l), w).

(** Writing fields of an object. *)
Definition update (l : loc) (f : GitLogCommit -> GitLogCommit) : JS unit :=
  fun w =>
    (Ok tt,
     {| heap := fun l' => if Nat.eqb l' l then f (heap w l') else heap w l';
        trace := trace w |}).

(** [await] of a call: the call is recorded and its answer returned. *)
Definition call {A} (e : Event) (answer : Outcome A) : JS A :=
  fun w => (answer, {| heap := heap w; trace := trace w ++ [e] |}).

(** [items.push(x)] under a condition. *)
Definition push_if {A} (b : bool) (x : A) (items : list A) : list A :=
  if b then items ++ [x] else items.


Section Show.

Variable ext : Externals.
Variable git : GitService.
Variable editor : Editor.

Local Open Scope list_scope.
Local Open Scope js_scope.

(** [Strings.pad(GlyphChars.Dash, 2, 3)] and [Strings.pad(GlyphChars.Dot, 1, 1)] *)
Definition padded_dash : string := Strings_pad ext (GlyphChars_Dash ext) 2 3.
Definition padded_dot : string := Strings_pad ext (GlyphChars_Dot ext) 1 1.

(** [commit.status === 'D'] *)
Definition deleted (commit : GitLogCommit) : bool :=
  match status commit with
  | Some s => String.eqb s "D"
  | None => false
  end.

(** [new OpenCommitFileCommandQuickPickItem(commit, item)], lines 12-21. *)
Definition OpenCommitFileCommandQuickPickItem
    (commit : GitLogCommit) (item : option QuickPickItem) : CommandQuickPickItem :=
  let uri := Uri_file (path_resolve ext (repoPath commit) (fileName commit)) in
  MkOpenFileCommandQuickPickItem uri
    (match item with
     | Some i => i
     | None =>
         {| label := "$(file-symlink-file) Open File";
            description :=
              cat [padded_dash; " "; path_basename ext (fileName commit)] |}
     end).

(** [new OpenCommitFileRevisionCommandQuickPickItem(commit, item)],
    lines 23-41. *)
Definition OpenCommitFileRevisionCommandQuickPickItem
    (commit : GitLogCommit) (item : option QuickPickItem) : CommandQuickPickItem :=
  let '(uri, description) :=
    if deleted commit then
      (GitContentUri (previousSha commit) (previousFileName commit)
                     (repoPath commit) None,
       cat [padded_dash; " "; path_basename ext (fileName commit); " in ";
            GlyphChars_Space ext; "$(git-commit) ";
            interpolate (previousShortSha ext commit); " (deleted in ";
            GlyphChars_Space ext; "$(git-commit) "; shortSha ext commit; ")"])
    else
      (GitContentUriOfCommit commit,
       cat [padded_dash; " "; path_basename ext (fileName commit); " in ";
            GlyphChars_Space ext; "$(git-commit) "; shortSha ext commit])
  in
  MkOpenFileCommandQuickPickItem uri
    (match item with
     | Some i => i
     | None =>
         {| label := "$(file-symlink-file) Open Revision";
            description := description |}
     end).

(** The items pushed by [show], in source order.  [commit] is the commit
    object and [c] its fields. *)

(* lines 62-72 *)
Definition showCommitDetailsItem (commit : loc) (c : GitLogCommit)
    (currentCommand : option CommandQuickPickItem) : CommandQuickPickItem :=
  MkCommandQuickPickItem
    {| label := "$(git-commit) Show Commit Details";
       description := cat [padded_dash; " $(git-commit) "; shortSha ext c] |}
    ShowQuickCommitDetails
    (ShowQuickCommitDetailsCommandArgs
       (GitUri (CommitUri c) c) commit (sha c) currentCommand).

(* lines 75-83 *)
Definition compareWithPreviousItem (commit : loc) (c : GitLogCommit)
  : CommandQuickPickItem :=
  MkCommandQuickPickItem
    {| label := "$(git-compare) Compare File with Previous Revision";
       description :=
         cat [padded_dash; " $(git-commit) ";
              interpolate (previousShortSha ext c); " "; GlyphChars_Space ext;
              " $(git-compare) "; GlyphChars_Space ext; " $(git-commit) ";
              shortSha ext c] |}
    DiffWithPrevious
    (DiffWithPreviousCommandArgs (CommitUri c) commit).

(* lines 88-96 *)
Definition compareWithWorkingItem (commit : loc) (c : GitLogCommit)
    (workingFileName workingName : string) : CommandQuickPickItem :=
  MkCommandQuickPickItem
    {| label := "$(git-compare) Compare File with Working Revision";
       description :=
         cat [padded_dash; " $(git-commit) "; shortSha ext c; " ";
              GlyphChars_Space ext; " $(git-compare) "; GlyphChars_Space ext;
              " $(file-text) "; workingName] |}
    DiffWithWorking
    (DiffWithWorkingCommandArgs
       (Uri_file (path_resolve ext (repoPath c) workingFileName)) commit).

(* lines 100-108 *)
Definition copyShaItem (c : GitLogCommit) (uri : Uri) : CommandQuickPickItem :=
  MkCommandQuickPickItem
    {| label := "$(clippy) Copy Commit ID to Clipboard";
       description := cat [padded_dash; " "; shortSha ext c] |}
    CopyShaToClipboard
    (CopyShaToClipboardCommandArgs uri (sha c)).

(* lines 110-119 *)
Definition copyMessageItem (c : GitLogCommit) (uri : Uri) : CommandQuickPickItem :=
  MkCommandQuickPickItem
    {| label := "$(clippy) Copy Message to Clipboard";
       description := cat [padded_dash; " "; message c] |}
    CopyMessageToClipboard
    (CopyMessageToClipboardCommandArgs uri (message c) (sha c)).

(* lines 147-156 *)
Definition fileHistoryItem (c : GitLogCommit) (workingFileName : string)
    (fileLog : option GitLog) (currentCommand : option CommandQuickPickItem)
  : CommandQuickPickItem :=
  MkCommandQuickPickItem
    {| label := "$(history) Show File History";
       description :=
         cat [padded_dash; " of "; path_basename ext (fileName c)] |}
    ShowQuickFileHistory
    (ShowQuickFileHistoryCommandArgs
       (Uri_file (path_resolve ext (repoPath c) workingFileName))
       fileLog currentCommand).

(* lines 160-168 *)
Definition fileHistoryFromCommitItem (c : GitLogCommit)
    (currentCommand : option CommandQuickPickItem) : CommandQuickPickItem :=
  MkCommandQuickPickItem
    {| label :=
         cat ["$(history) Show ";
              if truthy (workingFileName c) then "Previous " else "";
              "File History"];
       description :=
         cat [padded_dash; " of "; path_basename ext (fileName c); " ";
              padded_dot; " from "; GlyphChars_Space ext; "$(git-commit) ";
              shortSha ext c] |}
    ShowQuickFileHistory
    (ShowQuickFileHistoryCommandArgs (GitUri (CommitUri c) c) None currentCommand).

(** [commit.workingFileName && commit.status !== 'D'], as the working file
    name when the condition holds. *)
Definition workingFileIfNotDeleted (c : GitLogCommit) : option string :=
  if deleted c then None else truthy_value (workingFileName c).

(** Lines 61-125: the items pushed before the remotes are fetched. *)
Definition itemsBeforeRemotes (stash : bool) (workingName : string)
    (commit : loc) (c : GitLogCommit) (uri : Uri)
    (currentCommand : option CommandQuickPickItem) : list CommandQuickPickItem :=
  let items := [] in
  let items :=
    if negb stash then
      let items := items ++ [showCommitDetailsItem commit c currentCommand] in
      push_if (truthy (previousSha c)) (compareWithPreviousItem commit c) items
    else items in
  let items :=
    match truthy_value (workingFileName c) with
    | Some w => items ++ [compareWithWorkingItem commit c w workingName]
    | None => items
    end in
  let items :=
    if negb stash then
      items ++ [copyShaItem c uri] ++ [copyMessageItem c uri]
    else items in
  let items :=
    match workingFileIfNotDeleted c with
    | Some _ => items ++ [OpenCommitFileCommandQuickPickItem c None]
    | None => items
    end in
  items ++ [OpenCommitFileRevisionCommandQuickPickItem c None].

(** Lines 127-144: the remote items. *)
Definition pushRemoteItems (stash : bool) (commit : loc) (c : GitLogCommit)
    (currentCommand : option CommandQuickPickItem)
    (items : list CommandQuickPickItem) : JS (list CommandQuickPickItem) :=
  all <- call (GetRemotes (repoPath c)) (getRemotes git (repoPath c)) ;;
  let remotes := filter (fun r => negb (is_undefined (provider r))) all in
  if Nat.eqb (length remotes) 0 then ret items
  else
    items <-
      match workingFileIfNotDeleted c with
      | Some w =>
          let path := or_else (Some (repoPath c)) (git_repoPath git) in
          branch <- call (GetBranch path) (getBranch git path) ;;
          match branch with
          | Some b =>
              ret (items ++
                   [MkOpenRemotesCommandQuickPickItem remotes
                      (FileResource w (name b)) currentCommand])
          | None => throw        (* branch!.name on undefined *)
          end
      | None => ret items
      end ;;
    ret (push_if (negb stash)
           (MkOpenRemotesCommandQuickPickItem remotes
              (RevisionResource (fileName c) commit) currentCommand)
           items).

(** Lines 146-173: the history items and the go-back item. *)
Definition itemsAfterRemotes (stash : bool) (c : GitLogCommit)
    (goBackCommand currentCommand : option CommandQuickPickItem)
    (fileLog : option GitLog)
    (items : list CommandQuickPickItem) : list CommandQuickPickItem :=
  let items :=
    match truthy_value (workingFileName c) with
    | Some w => items ++ [fileHistoryItem c w fileLog currentCommand]
    | None => items
    end in
  let items :=
    push_if (negb stash) (fileHistoryFromCommitItem c currentCommand) items in
  match goBackCommand with
  | Some back => back :: items                  (* items.splice(0, 0, goBackCommand) *)
  | None => items
  end.

(** The item that opens the details of another revision of the file, as
    built at lines 182-189, 193-200, 227-234 and 257-264. *)
Definition showCommitFileDetailsKey (uri : Uri) (fileLog : option GitLog)
    (sha : string) (goBackCommand : option CommandQuickPickItem)
  : CommandQuickPickItem :=
  MkKeyCommandQuickPickItem ShowQuickCommitFileDetails
    (ShowQuickCommitFileDetailsCommandArgs uri fileLog sha goBackCommand).

(** [log && log.commits.get(sha)] *)
Definition lookup_commit (log : option GitLog) (sha : string) : option loc :=
  match log with
  | Some l => commits_get (commits l) sha
  | None => None
  end.

(** Lines 225-234: the end of the [previousCommand] closure. *)
Definition previousCommand_result (log : option GitLog) (c : option loc)
    (goBackCommand : option CommandQuickPickItem) : JS KeyCommand :=
  match c with
  | None => ret KeyNoopCommand
  | Some lc =>
      cv <- deref lc ;;
      match previousSha cv with
      | None => ret KeyNoopCommand
      | Some p =>
          ret (KeyItem
                 (showCommitFileDetailsKey (CommitPreviousUri cv) log p
                    goBackCommand))
      end
  end.

(** [c === undefined || c.previousSha === undefined] *)
Definition previous_unavailable (c : option loc) : JS bool :=
  match c with
  | None => ret true
  | Some lc => cv <- deref lc ;; ret (is_undefined (previousSha cv))
  end.

(** Lines 212-216: the commit in the re-fetched log; merge commits are
    not in a file log, so for one "just grab the first returned commit". *)
Definition refetchedCommit (log : GitLog) (cm : GitLogCommit) : option loc :=
  let c := commits_get (commits log) (sha cm) in
  if is_undefined c && isMerge ext cm
  then Iterables_first ext (commits_values (commits log))
  else c.

(** Lines 203-235: the body of the closure bound to [previousCommand]. *)
Definition previousCommand_async (commit : loc) (uri : Uri)
    (goBackCommand : option CommandQuickPickItem) (fileLog : option GitLog)
  : JS KeyCommand :=
  let log := fileLog in
  cm <- deref commit ;;
  let c := lookup_commit log (sha cm) in
  stale <- previous_unavailable c ;;
  if stale then
    log <- call (GetLogForFile (repoPath cm) (fsPath ext uri) (sha cm)
                   (maxQuickHistory git))
                (getLogForFile git (repoPath cm) (fsPath ext uri) (sha cm)
                   (maxQuickHistory git)) ;;
    match log with
    | None => ret KeyNoopCommand
    | Some l =>
        let c := refetchedCommit l cm in
        match c with
        | Some lc =>
            cm <- deref commit ;;
            update lc (set_next (nextSha cm) (nextFileName cm))
        | None => ret tt
        end ;;;
        previousCommand_result (Some l) c goBackCommand
    end
  else previousCommand_result log c goBackCommand.

(** Lines 255-264: the end of the [nextCommand] closure. *)
Definition nextCommand_result (log : option GitLog) (c : option loc)
    (goBackCommand : option CommandQuickPickItem) : JS KeyCommand :=
  match c with
  | None => ret KeyNoopCommand
  | Some lc =>
      cv <- deref lc ;;
      match nextSha cv with
      | None => ret KeyNoopCommand
      | Some n =>
          ret (KeyItem
                 (showCommitFileDetailsKey (CommitNextUri cv) log n
                    goBackCommand))
      end
  end.

(** [c === undefined || c.nextSha === undefined] *)
Definition next_unavailable (c : option loc) : JS bool :=
  match c with
  | None => ret true
  | Some lc => cv <- deref lc ;; ret (is_undefined (nextSha cv))
  end.

(** Lines 237-265: the body of the closure bound to [nextCommand]. *)
Definition nextCommand_async (commit : loc) (uri : Uri)
    (goBackCommand : option CommandQuickPickItem) (fileLog : option GitLog)
  : JS KeyCommand :=
  let log := fileLog in
  cm <- deref commit ;;
  let c := lookup_commit log (sha cm) in
  stale <- next_unavailable c ;;
  if stale then
    next <- call (FindNextCommit (repoPath cm) (fsPath ext uri) (sha cm))
                 (findNextCommit git (repoPath cm) (fsPath ext uri) (sha cm)) ;;
    c <- match next with
         | Some ln =>
             nx <- deref ln ;;
             cm <- deref commit ;;
             if negb (String.eqb (sha nx) (sha cm)) then
               update commit (fun c => set_next (Some (sha nx)) (nextFileName c) c) ;;;
               nx <- deref ln ;;
               update commit
                 (fun c =>
                    set_next (nextSha c)
                      (Some (or_else (originalFileName nx) (fileName nx))) c) ;;;
               ret (Some commit)
             else ret None
         | None => ret None
         end ;;
    nextCommand_result None c goBackCommand
  else nextCommand_result log c goBackCommand.

(** Calling a closure. *)
Definition invoke (f : Closure) : JS KeyCommand :=
  match f with
  | PreviousCommandFn commit uri goBackCommand fileLog =>
      previousCommand_async commit uri goBackCommand fileLog
  | NextCommandFn commit uri goBackCommand fileLog =>
      nextCommand_async commit uri goBackCommand fileLog
  end.

(** "If we have the full history, we are good" (line 179). *)
Definition fullHistory (fileLog : option GitLog) : bool :=
  match fileLog with
  | Some l => negb (truncated l) && is_undefined (log_sha l)
  | None => false
  end.

(** Lines 175-267: the value of the variable [previousCommand]. *)
Definition previousCommand (stash : bool) (commit : loc) (c : GitLogCommit)
    (uri : Uri) (goBackCommand : option CommandQuickPickItem)
    (fileLog : option GitLog) : option KeyBinding :=
  if negb stash then
    if fullHistory fileLog then
      match previousSha c with
      | None => None
      | Some p =>
          Some (KeyStatic
                  (showCommitFileDetailsKey (CommitPreviousUri c) fileLog p
                     goBackCommand))
      end
    else Some (KeyLazy (PreviousCommandFn commit uri goBackCommand fileLog))
  else None.

(** Lines 175-267: the value of the variable [nextCommand]. *)
Definition nextCommand (stash : bool) (commit : loc) (c : GitLogCommit)
    (uri : Uri) (goBackCommand : option CommandQuickPickItem)
    (fileLog : option GitLog) : option KeyBinding :=
  if negb stash then
    if fullHistory fileLog then
      match nextSha c with
      | None => None
      | Some n =>
          Some (KeyStatic
                  (showCommitFileDetailsKey (CommitNextUri c) fileLog n
                     goBackCommand))
      end
    else Some (KeyLazy (NextCommandFn commit uri goBackCommand fileLog))
  else None.

(** Line 277: the place holder of the picker. *)
Definition placeHolderOf (isUncommitted : bool) (c : GitLogCommit) : string :=
  cat [getFormattedPath ext c; " "; padded_dot; " ";
       if isUncommitted
       then cat ["Uncommitted "; GlyphChars_ArrowRightHollow ext; " "]
       else "";
       shortSha ext c; " "; padded_dot; " "; author c; ", "; fromNow ext c;
       " "; padded_dot; " "; message c].

(** Lines 61-286: [show] once [commit] is a committed revision.  [stash],
    [workingName] and [isUncommitted] were computed from the commit that
    [show] was called with. *)
Definition show_commit (stash : bool) (workingName : string)
    (isUncommitted : bool) (commit : loc) (uri : Uri)
    (goBackCommand currentCommand : option CommandQuickPickItem)
    (fileLog : option GitLog) : JS (option CommandQuickPickItem) :=
  c <- deref commit ;;
  let items := itemsBeforeRemotes stash workingName commit c uri currentCommand in
  items <- pushRemoteItems stash commit c currentCommand items ;;
  let items :=
    itemsAfterRemotes stash c goBackCommand currentCommand fileLog items in
  let mapping :=
    {| left := goBackCommand;
       comma := previousCommand stash commit c uri goBackCommand fileLog;
       dot := nextCommand stash commit c uri goBackCommand fileLog |} in
  call (BeginScope mapping) (beginScope editor mapping) ;;;
  let options :=
    {| matchOnDescription := true;
       placeHolder := placeHolderOf isUncommitted c;
       ignoreFocusOut := getQuickPickIgnoreFocusOut ext;
       onDidSelectItem := SetRightKeyCommand |} in
  pick <- call (ShowQuickPick items options) (showQuickPick editor items options) ;;
  call ScopeDispose (dispose editor) ;;;
  ret pick.

(** Line 50: [workingName]. *)
Definition workingNameOf (c : GitLogCommit) : string :=
  or_else
    (match truthy_value (workingFileName c) with
     | Some w => Some (path_basename ext w)
     | None => None
     end)
    (path_basename ext (fileName c)).

(** [CommitFileDetailsQuickPick.show], lines 45-287. *)
Definition show (commit : loc) (uri : Uri)
    (goBackCommand currentCommand : option CommandQuickPickItem)
    (fileLog : option GitLog) : JS (option CommandQuickPickItem) :=
  c <- deref commit ;;
  let stash := isStash c in
  let workingName := workingNameOf c in
  let isUncommitted := isUncommitted ext c in
  if isUncommitted then
    found <- call (GetLogCommit None (fsPath ext (CommitUri c)) true)
                  (getLogCommit git None (fsPath ext (CommitUri c)) true) ;;
    match found with
    | None => ret None
    | Some commit =>
        show_commit stash workingName isUncommitted commit uri
          goBackCommand currentCommand fileLog
    end
  else
    show_commit stash workingName isUncommitted commit uri
      goBackCommand currentCommand fileLog.

End Show.

(** Running a computation on a heap, from an empty trace. *)
Definition run {A} (m : JS A) (h : loc -> GitLogCommit) : Outcome A * World :=
  m {| heap := h; trace := [] |}.

Definition result_of {A} (m : JS A) (h : loc -> GitLogCommit) : Outcome A :=
  fst (run m h).

Definition events_of {A} (m : JS A) (h : loc -> GitLogCommit) : list Event :=
  trace (snd (run m h)).

Definition heap_after {A} (m : JS A) (h : loc -> GitLogCommit)
  : loc -> GitLogCommit :=
  heap (snd (run m h)).

(** *** Vocabulary of the properties *)

(** The uri that an open-file item opens. *)
Definition openedUri (item : CommandQuickPickItem) : option Uri :=
  match item with
  | MkOpenFileCommandQuickPickItem uri _ => Some uri
  | _ => None
  end.

(** The commit that [show] displays (lines 52-59): the given one, or the
    last committed revision of its file when it is uncommitted. *)
Definition shownCommit (ext : Externals) (git : GitService)
    (h : loc -> GitLogCommit) (commit : loc) : option loc :=
  if isUncommitted ext (h commit) then
    match getLogCommit git None (fsPath ext (CommitUri (h commit))) true with
    | Ok found => found
    | Throw => None
    end
  else Some commit.

(** "The commit is not found in the provided fileLog, or its previousSha is
    undefined." *)
Definition stale_previous (h : loc -> GitLogCommit) (fileLog : option GitLog)
    (commit : loc) : bool :=
  match fileLog with
  | None => true
  | Some log =>
      match commits_get (commits log) (sha (h commit)) with
      | None => true
      | Some c => is_undefined (previousSha (h c))
      end
  end.

(** "The commit is not found in the provided fileLog, or its nextSha is
    undefined." *)
Definition stale_next (h : loc -> GitLogCommit) (fileLog : option GitLog)
    (commit : loc) : bool :=
  match fileLog with
  | None => true
  | Some log =>
      match commits_get (commits log) (sha (h commit)) with
      | None => true
      | Some c => is_undefined (nextSha (h c))
      end
  end.

(** The actions that concern the commit rather than the file: commit
    details, comparison with the previous revision, copying the id or the
    message, the remote of the revision, and the history from the commit. *)
Definition commitSpecific (item : CommandQuickPickItem) : bool :=
  match item with
  | MkCommandQuickPickItem _ ShowQuickCommitDetails _ => true
  | MkCommandQuickPickItem _ DiffWithPrevious _ => true
  | MkCommandQuickPickItem _ CopyShaToClipboard _ => true
  | MkCommandQuickPickItem _ CopyMessageToClipboard _ => true
  | MkCommandQuickPickItem _ ShowQuickFileHistory
      (ShowQuickFileHistoryCommandArgs (GitUri _ _) _ _) => true
  | MkOpenRemotesCommandQuickPickItem _ (RevisionResource _ _) _ => true
  | _ => false
  end.

(** [goBackCommand], as the items it contributes. *)
Definition goBackItems (goBackCommand : option CommandQuickPickItem)
  : list CommandQuickPickItem :=
  match goBackCommand with
  | Some back => [back]
  | None => []
  end.

(** The remotes that have a provider, when the git service lists them. *)
Definition providedRemotes (git : GitService) (c : GitLogCommit)
  : list GitRemote :=
  match getRemotes git (repoPath c) with
  | Ok all => filter (fun r => negb (is_undefined (provider r))) all
  | Throw => []
  end.

(** The queries for more history, which only the closures make. *)
Definition isHistoryQuery (e : Event) : bool :=
  match e with
  | GetLogForFile _ _ _ _ | FindNextCommit _ _ _ => true
  | _ => false
  end.

(** Calls into the git service that [show] itself makes. *)
Definition isServiceCall (e : Event) : bool :=
  match e with
  | GetLogCommit _ _ _ | GetRemotes _ | GetBranch _ => true
  | _ => false
  end.

(** The commit-specific actions in the picker of a regular commit, in the
    order of the picker. *)
Definition commitActions (ext : Externals) (git : GitService) (commit : loc)
    (c : GitLogCommit) (uri : Uri)
    (currentCommand : option CommandQuickPickItem) : list CommandQuickPickItem :=
  ([showCommitDetailsItem ext commit c currentCommand]
   ++ (if truthy (previousSha c) then [compareWithPreviousItem ext commit c]
       else [])
   ++ [copyShaItem ext c uri; copyMessageItem ext c uri]
   ++ (match providedRemotes git c with
       | [] => []
       | remotes =>
           [MkOpenRemotesCommandQuickPickItem remotes
              (RevisionResource (fileName c) commit) currentCommand]
       end)
   ++ [fileHistoryFromCommitItem ext c currentCommand])%list.

(** The mapping that [show] installs for the commit [commit]. *)
Definition mappingOf (stash : bool) (commit : loc) (c : GitLogCommit)
    (uri : Uri) (goBack : option CommandQuickPickItem)
    (fileLog : option GitLog) : KeyMapping :=
  {| left := goBack;
     comma := previousCommand stash commit c uri goBack fileLog;
     dot := nextCommand stash commit c uri goBack fileLog |}.

(** *** A concrete repository *)

Module Demo.

Definition uncommittedSha : string := "0000000000000000000000000000000000000000".

Definition demo_ext : Externals :=
  {| path_basename := fun p => p;
     path_resolve := fun a b => cat [a; "/"; b];
     Strings_pad := fun s _ _ => s;
     GlyphChars_Dash := "-";
     GlyphChars_Dot := ".";
     GlyphChars_Space := " ";
     GlyphChars_ArrowRightHollow := ">";
     fsPath := fun u =>
       match u with
       | Uri_file p => p
       | CommitUri c => cat [repoPath c; "/"; fileName c]
       | _ => "?"
       end;
     isUncommitted := fun c => String.eqb (sha c) uncommittedSha;
     isMerge := fun _ => false;
     shortSha := sha;
     previousShortSha := previousSha;
     getFormattedPath := fileName;
     fromNow := fun _ => "now";
     Iterables_first := fun l => hd_error l;
     getQuickPickIgnoreFocusOut := true |}.

Definition commit_of (type : GitCommitType) (sha : string)
    (previous next : option string) : GitLogCommit :=
  {| type := type; sha := sha; repoPath := "/repo"; fileName := "a.ts";
     originalFileName := None; workingFileName := Some "a.ts";
     status := Some "M";
     previousSha := previous;
     previousFileName := option_map (fun _ => "a.ts") previous;
     nextSha := next;
     nextFileName := option_map (fun _ => "a.ts") next;
     author := "Ada"; message := "edit" |}.

(** A commit that deletes the file. *)
Definition removal : GitLogCommit :=
  {| type := Regular; sha := "d4"; repoPath := "/repo"; fileName := "a.ts";
     originalFileName := None; workingFileName := None;
     status := Some "D";
     previousSha := Some "b2"; previousFileName := Some "a.ts";
     nextSha := None; nextFileName := None;
     author := "Ada"; message := "remove" |}.

(** Object 0 is the first commit of the file, 1 the second, 2 a stash,
    3 the uncommitted changes, 4 a third commit that no cached link knows. *)
Definition demo_heap (l : loc) : GitLogCommit :=
  match l with
  | 0 => commit_of Regular "a1" None (Some "b2")
  | 1 => commit_of Regular "b2" (Some "a1") None
  | 2 => commit_of Stash "s0" (Some "b2") None
  | 3 => commit_of Regular uncommittedSha (Some "b2") None
  | _ => commit_of Regular "c3" (Some "b2") None
  end%nat.

(** The whole history of the file, and the same history cut short. *)
Definition full_log : GitLog :=
  {| commits := [("b2", 1%nat); ("a1", 0%nat)]; truncated := false;
     log_sha := None |}.

Definition truncated_log : GitLog :=
  {| commits := [("b2", 1%nat)]; truncated := true; log_sha := None |}.

Definition demo_git (lastCommit : option loc) : GitService :=
  {| getLogCommit := fun _ _ _ => Ok lastCommit;
     getLogForFile := fun _ _ _ _ => Ok (Some full_log);
     findNextCommit := fun _ _ _ => Ok (Some 4%nat);
     getRemotes := fun _ =>
       Ok [{| provider := Some "github" |}; {| provider := None |}];
     getBranch := fun _ => Ok (Some {| name := "master" |});
     git_repoPath := "/repo";
     maxQuickHistory := 200 |}.

Definition demo_editor : Editor :=
  {| beginScope := fun _ => Ok tt;
     showQuickPick := fun items _ => Ok (hd_error items);
     dispose := Ok tt |}.

Definition back : CommandQuickPickItem :=
  MkCommandQuickPickItem
    {| label := "go back"; description := "to history of a.ts" |}
    ShowQuickFileHistory
    (ShowQuickFileHistoryCommandArgs (Uri_file "/repo/a.ts") None None).

(** The labels of the items of a picker, as the user reads them. *)
Definition labels (items : list CommandQuickPickItem) : list string :=
  map (fun i =>
         match i with
         | MkCommandQuickPickItem item _ _ => label item
         | MkOpenFileCommandQuickPickItem _ item => label item
         | MkOpenRemotesCommandQuickPickItem _ (FileResource _ _) _ =>
             "open file in remote"
         | MkOpenRemotesCommandQuickPickItem _ (RevisionResource _ _) _ =>
             "open revision in remote"
         | MkKeyCommandQuickPickItem _ _ => ""
         end) items.

(** The pickers shown in a trace, by the labels of their items. *)
Fixpoint pickers (events : list Event) : list (list string) :=
  match events with
  | [] => []
  | ShowQuickPick items _ :: rest => labels items :: pickers rest
  | _ :: rest => pickers rest
  end.

(** The key mappings installed in a trace. *)
Fixpoint scopes (events : list Event) : list KeyMapping :=
  match events with
  | [] => []
  | BeginScope mapping :: rest => mapping :: scopes rest
  | _ :: rest => scopes rest
  end.

Definition demo_uri : Uri := Uri_file "/repo/a.ts".

End Demo.

(** *** Vocabulary of the properties of the whole run *)

(** The world after some more calls. *)
Definition extend (w : World) (events : list Event) : World :=
  {| heap := heap w; trace := trace w ++ events |}.

(** An item that opens the file of the working tree. *)
Definition isOpenFile (item : CommandQuickPickItem) : bool :=
  match item with
  | MkOpenFileCommandQuickPickItem (Uri_file _) _ => true
  | _ => false
  end.

(** An item that opens the file or the revision in a remote. *)
Definition isRemotesItem (item : CommandQuickPickItem) : bool :=
  match item with
  | MkOpenRemotesCommandQuickPickItem _ _ _ => true
  | _ => false
  end.

(** An item that opens a revision of the file. *)
Definition isOpenRevision (item : CommandQuickPickItem) : bool :=
  match item with
  | MkOpenFileCommandQuickPickItem (GitContentUri _ _ _ _) _ => true
  | MkOpenFileCommandQuickPickItem (GitContentUriOfCommit _) _ => true
  | _ => false
  end.

(** The item that compares with the working tree, and the item that shows
    the history of the working file. *)
Definition isCompareWithWorking (item : CommandQuickPickItem) : bool :=
  match item with
  | MkCommandQuickPickItem _ DiffWithWorking _ => true
  | _ => false
  end.

Definition isFileHistory (item : CommandQuickPickItem) : bool :=
  match item with
  | MkCommandQuickPickItem _ ShowQuickFileHistory
      (ShowQuickFileHistoryCommandArgs (Uri_file _) _ _) => true
  | _ => false
  end.

(** The history items at the end of a picker (lines 146-169). *)
Definition historyItems (ext : Externals) (stash : bool) (c : GitLogCommit)
    (currentCommand : option CommandQuickPickItem) (fileLog : option GitLog)
  : list CommandQuickPickItem :=
  itemsAfterRemotes ext stash c None currentCommand fileLog [].

(** The remote items of a picker that was opened (lines 127-144). *)
Definition remoteItemsOf (git : GitService) (stash : bool) (commit : loc)
    (c : GitLogCommit) (currentCommand : option CommandQuickPickItem)
  : list CommandQuickPickItem :=
  match providedRemotes git c with
  | [] => []
  | remotes =>
      (match workingFileIfNotDeleted c,
             getBranch git (or_else (Some (repoPath c)) (git_repoPath git)) with
       | Some wf, Ok (Some b) =>
           [MkOpenRemotesCommandQuickPickItem remotes
              (FileResource wf (name b)) currentCommand]
       | _, _ => []
       end)
      ++ (if stash then []
          else [MkOpenRemotesCommandQuickPickItem remotes
                  (RevisionResource (fileName c) commit) currentCommand])
  end%list.

(** The calls into the editor. *)
Definition isEditorCall (e : Event) : bool :=
  match e with
  | BeginScope _ | ShowQuickPick _ _ | ScopeDispose => true
  | _ => false
  end.

(** [commit.repoPath || git.repoPath], the argument of [getBranch]. *)
Definition branchPath (git : GitService) (c : GitLogCommit) : string :=
  or_else (Some (repoPath c)) (git_repoPath git).

(** *** More of the concrete repository *)

Module Session.

Import Demo.

(** An editor whose quick pick is rejected, and one that refuses the key
    scope. *)
Definition closing_editor : Editor :=
  {| beginScope := fun _ => Ok tt;
     showQuickPick := fun _ _ => Throw;
     dispose := Ok tt |}.

Definition busy_editor : Editor :=
  {| beginScope := fun _ => Throw;
     showQuickPick := fun items _ => Ok (hd_error items);
     dispose := Ok tt |}.

(** A repository with remotes whose current branch is unknown. *)
Definition detached_git : GitService :=
  {| getLogCommit := fun _ _ _ => Ok None;
     getLogForFile := fun _ _ _ _ => Ok (Some full_log);
     findNextCommit := fun _ _ _ => Ok (Some 4%nat);
     getRemotes := fun _ =>
       Ok [{| provider := Some "github" |}; {| provider := None |}];
     getBranch := fun _ => Ok None;
     git_repoPath := "/repo";
     maxQuickHistory := 200 |}.

(** A log that holds the second commit object itself. *)
Definition own_log : GitLog :=
  {| commits := [("b2", 1%nat)]; truncated := true; log_sha := None |}.

(** Object 5 is the commit that deletes the file. *)
Definition session_heap (l : loc) : GitLogCommit :=
  match l with
  | 5%nat => removal
  | _ => demo_heap l
  end.

(** Object 6 is a second object for the commit [b2], as the caller of
    [show] holds it: unlike the entry of the log (object 1) it knows the
    third commit as its next one. *)
Definition relinked_heap (l : loc) : GitLogCommit :=
  match l with
  | 6%nat => commit_of Regular "b2" (Some "a1") (Some "c3")
  | _ => demo_heap l
  end.

End Session.

End CommitFileDetails.

(** ** [src/views/stashFileNode.ts] *)

Module StashFileNode.

(** [git.config.gitExplorer], as far as the node reads it. *)
Record GitExplorerConfig : Type := {
  stashFormat : string;
  stashFileFormat : string
}.

(** [readonly resourceType: ResourceType = 'gitlens:stash-file'] *)
Definition resourceType : string := "gitlens:stash-file".

(** [getCommitTemplate()] and [getCommitFileTemplate()], lines 20-26. *)
Definition getCommitTemplate (config : GitExplorerConfig) : string :=
  stashFormat config.

Definition getCommitFileTemplate (config : GitExplorerConfig) : string :=
  stashFileFormat config.

End StashFileNode.

(** ** [DiffLineWithPreviousCommand] *)

Module DiffLineWithPrevious.

(** The data fields of a [GitCommit] that the command reads.  A sha or a
    file name taken from the previous-revision fields may be absent. *)
Record GitCommit : Type := {
  repoPath : string;
  sha : option string;
  fileName : option string;
  author : string;
  date : string;
  message : string;
  previousSha : option string;
  previousFileName : option string
}.

Inductive Uri : Type :=
| Uri_file (path : string)                     (* Uri.file(path) *)
| CommitUri (c : GitCommit).                   (* commit.uri *)

(** The result of [GitUri.fromUri]. *)
Record GitUri : Type := {
  offset : Z;
  fsPath : string;
  gitUri_sha : option string;
  gitUri_repoPath : string
}.

(** The result of [getBlameForLine]: [blame.commit] and [blame.line.line]. *)
Record GitBlameLine : Type := {
  blame_commit : GitCommit;
  blame_line : Z
}.

Record TextDocument : Type := {
  document_uri : Uri
}.

(** [editor.document] and [editor.selection.active.line]. *)
Record TextEditor : Type := {
  document : option TextDocument;
  active_line : Z
}.

(** What a host call resolves to: [undefined], or a value of the host. *)
Inductive Value : Type :=
| Undefined
| HostValue (v : string).

(** The commands dispatched through [commands.executeCommand], with their
    arguments. *)
Inductive HostCommand : Type :=
| DiffWithWorking (uri : Uri) (commit : GitCommit) (line : Z)
                                               (* Commands.DiffWithWorking *)
| Diff (left right : Uri) (title : string)     (* BuiltInCommands.Diff *)
| RevealLine (lineNumber : Z) (at_ : string).  (* BuiltInCommands.RevealLine *)

Inductive Event : Type :=
| GetBlameForLine (fileName : string) (line : Z) (sha : option string)
                  (repoPath : string)
| GetVersionedFile (fileName : string) (repoPath : string) (sha : option string)
| ExecuteCommand (command : HostCommand)
| ShowWarningMessage (text : string)
| ShowErrorMessage (text : string)
| LoggerError (prefix text : string).

(** The calls are the only state: the command mutates nothing. *)
Definition World : Type := list Event.

Definition JS := M World.

(** The git provider and the editor, as the answers they give. *)
Record Host : Type := {
  getBlameForLine :
    string -> Z -> option string -> string -> Outcome (option GitBlameLine);
  getVersionedFile : string -> string -> option string -> Outcome string;
  executeCommand : HostCommand -> Outcome Value;
  showWarningMessage : string -> Outcome Value;
  showErrorMessage : string -> Outcome Value
}.

(** Members of imported modules and classes whose code is not among the
    sources. *)
Record Externals : Type := {
  GitUri_fromUri : Uri -> GitUri;
  GitProvider_isUncommitted : option string -> bool;
  isUncommitted : GitCommit -> bool;
  new_GitCommit :
    string -> option string -> option string -> string -> string -> string ->
    GitCommit;
  uri_fsPath : Uri -> string;
  path_basename : string -> string;
  number_toString : Z -> string
}.

(** A call that returns a promise: the call is recorded; the promise is
    already settled with the host's answer. *)
Definition start {A} (e : Event) (answer : Outcome A) : JS (Outcome A) :=
  fun w => (Ok answer, (w ++ [e])%list).

(** [await p], and [return p] at the end of an async function. *)
Definition settle {A} (p : Outcome A) : JS A :=
  fun w => (p, w).

(** [await f(...)] *)
Definition call {A} (e : Event) (answer : Outcome A) : JS A :=
  bind (start e answer) settle.

(** A call with no result. *)
Definition log (e : Event) : JS unit :=
  fun w => (Ok tt, (w ++ [e])%list).

(** How the first [try] block (lines 26-53) ends: with a [return] of a
    promise, or by falling through with the commit and line to compare. *)
Inductive Blamed : Type :=
| Return (p : Outcome Value)
| Resolved (commit : GitCommit) (line : Z).

Section Execute.

Variable ext : Externals.
Variable host : Host.

Local Open Scope list_scope.
Local Open Scope Z_scope.
Local Open Scope js_scope.

(** [new GitCommit(commit.repoPath, commit.previousSha,
    commit.previousFileName, commit.author, commit.date, commit.message)] *)
Definition previousRevision (commit : GitCommit) : GitCommit :=
  new_GitCommit ext (repoPath commit) (previousSha commit)
    (previousFileName commit) (author commit) (date commit) (message commit).

(** [a === b] on optional strings. *)
Definition same_sha (a b : option string) : bool :=
  match a, b with
  | Some x, Some y => String.eqb x y
  | None, None => true
  | _, _ => false
  end.

Definition unableToOpenDiff_warning : string :=
  "Unable to open diff. File is probably not under source control".

Definition unableToOpenDiff_error : string :=
  "Unable to open diff. See output channel for more details".

Definition logger_prefix : string := "[GitLens.DiffWithPreviousLineCommand]".

(** Lines 34-39: the commit named by the blame, or its previous revision
    when the file is already shown at that commit; and the line to reveal. *)
Definition blameTarget (gitUri : GitUri) (blame : GitBlameLine) (line : Z)
  : GitCommit * Z :=
  let commit := blame_commit blame in
  if same_sha (gitUri_sha gitUri) (sha commit)
  then (previousRevision commit, blame_line blame + 1 + offset gitUri)
  else (commit, line).

(** Lines 34-47: from the blame to the commit to compare with. *)
Definition afterBlame (gitUri : GitUri) (blame : GitBlameLine) (line : Z)
  : JS Blamed :=
  let '(commit, line) := blameTarget gitUri blame line in
  if isUncommitted ext commit then
    let uri := CommitUri commit in
    let commit := previousRevision commit in
    let line := blame_line blame + 1 + offset gitUri in
    p <- start (ExecuteCommand (DiffWithWorking uri commit line))
               (executeCommand host (DiffWithWorking uri commit line)) ;;
    ret (Return p)
  else ret (Resolved commit line).

(** Lines 27-52: the blame query, for a line whose commit is not known. *)
Definition resolveByBlame (gitUri : GitUri) (line : Z) : JS Blamed :=
  let blameline := line - offset gitUri in
  if blameline <? 0 then ret (Return (Ok Undefined))
  else
    try_catch
      (blame <- call (GetBlameForLine (fsPath gitUri) blameline
                        (gitUri_sha gitUri) (gitUri_repoPath gitUri))
                     (getBlameForLine host (fsPath gitUri) blameline
                        (gitUri_sha gitUri) (gitUri_repoPath gitUri)) ;;
       match blame with
       | None =>
           p <- start (ShowWarningMessage unableToOpenDiff_warning)
                      (showWarningMessage host unableToOpenDiff_warning) ;;
           ret (Return p)
       | Some blame => afterBlame gitUri blame line
       end)
      (log (LoggerError logger_prefix
              (cat ["getBlameForLine("; number_toString ext blameline; ")"])) ;;;
       p <- start (ShowErrorMessage unableToOpenDiff_error)
                  (showErrorMessage host unableToOpenDiff_error) ;;
       ret (Return p)).

(** The title of the diff editor (line 60). *)
Definition diffTitle (gitUri : GitUri) (commit : GitCommit) : string :=
  cat [path_basename ext (uri_fsPath ext (CommitUri commit)); " (";
       interpolate (sha commit); ") ↔ "; path_basename ext (fsPath gitUri);
       " ("; interpolate (gitUri_sha gitUri); ")"].

(** Lines 55-66: the diff itself. *)
Definition openDiff (gitUri : GitUri) (commit : GitCommit) (line : Z)
  : JS Value :=
  try_catch
    (p0 <- start (GetVersionedFile (fsPath gitUri) (gitUri_repoPath gitUri)
                    (gitUri_sha gitUri))
                 (getVersionedFile host (fsPath gitUri) (gitUri_repoPath gitUri)
                    (gitUri_sha gitUri)) ;;
     p1 <- start (GetVersionedFile (uri_fsPath ext (CommitUri commit))
                    (repoPath commit) (sha commit))
                 (getVersionedFile host (uri_fsPath ext (CommitUri commit))
                    (repoPath commit) (sha commit)) ;;
     v0 <- settle p0 ;;
     v1 <- settle p1 ;;
     call (ExecuteCommand
             (Diff (Uri_file v1) (Uri_file v0) (diffTitle gitUri commit)))
          (executeCommand host
             (Diff (Uri_file v1) (Uri_file v0) (diffTitle gitUri commit))) ;;;
     call (ExecuteCommand (RevealLine line "center"))
          (executeCommand host (RevealLine line "center")))
    (log (LoggerError logger_prefix "getVersionedFile") ;;;
     call (ShowErrorMessage unableToOpenDiff_error)
          (showErrorMessage host unableToOpenDiff_error)).

(** [line || editor.selection.active.line] *)
Definition lineOrActive (editor : TextEditor) (line : option Z) : Z :=
  match line with
  | Some l => if l =? 0 then active_line editor else l
  | None => active_line editor
  end.

(** Lines 18-21: the uri to work on, if there is one. *)
Definition uriOrDocument (editor : TextEditor) (uri : option Uri) : option Uri :=
  match uri with
  | Some u => Some u
  | None =>
      match document editor with
      | Some d => Some (document_uri d)
      | None => None
      end
  end.

(** [!commit || GitProvider.isUncommitted(commit.sha)] *)
Definition needsBlame (commit : option GitCommit) : bool :=
  match commit with
  | Some c => GitProvider_isUncommitted ext (sha c)
  | None => true
  end.

(** [DiffLineWithPreviousCommand.execute], lines 17-67.  [uri] is [None]
    when the argument is not a [Uri]. *)
Definition execute (editor : TextEditor) (uri : option Uri)
    (commit : option GitCommit) (line : option Z) : JS Value :=
  match uriOrDocument editor uri with
  | None => ret Undefined
  | Some uri =>
      let line := lineOrActive editor line in
      let gitUri := GitUri_fromUri ext uri in
      blamed <-
        match commit with
        | Some c =>
            if needsBlame commit then resolveByBlame gitUri line
            else ret (Resolved c line)
        | None => resolveByBlame gitUri line
        end ;;
      match blamed with
      | Return p => settle p
      | Resolved commit line => openDiff gitUri commit line
      end
  end.

(** Running the command from an empty trace. *)
Definition result_of {A} (m : JS A) : Outcome A := fst (m []).

Definition events_of {A} (m : JS A) : list Event := snd (m []).

(** The host commands dispatched in a trace, in order. *)
Fixpoint dispatched (events : list Event) : list HostCommand :=
  match events with
  | [] => []
  | ExecuteCommand c :: rest => c :: dispatched rest
  | _ :: rest => dispatched rest
  end.

(** The blame query that [execute] makes for the line [line] of [gitUri]. *)
Definition blameQuery (gitUri : GitUri) (line : Z) : Event :=
  GetBlameForLine (fsPath gitUri) (line - offset gitUri) (gitUri_sha gitUri)
    (gitUri_repoPath gitUri).

Definition blameAnswer (gitUri : GitUri) (line : Z)
  : Outcome (option GitBlameLine) :=
  getBlameForLine host (fsPath gitUri) (line - offset gitUri)
    (gitUri_sha gitUri) (gitUri_repoPath gitUri).

(** [ReachesDiff editor uri commit line gitUri c l pre]: the invocation
    reaches the diff stage (line 55) to compare [gitUri] with the committed
    commit [c] at line [l], after the calls [pre].  Either a committed
    commit was supplied, or the blame of the line resolved one. *)
Inductive ReachesDiff (editor : TextEditor) (uri : option Uri)
    (commit : option GitCommit) (line : option Z)
  : GitUri -> GitCommit -> Z -> list Event -> Prop :=
| reach_supplied u c :
    uriOrDocument editor uri = Some u ->
    commit = Some c ->
    GitProvider_isUncommitted ext (sha c) = false ->
    ReachesDiff editor uri commit line
      (GitUri_fromUri ext u) c (lineOrActive editor line) []
| reach_blamed u blame :
    uriOrDocument editor uri = Some u ->
    needsBlame commit = true ->
    0 <= lineOrActive editor line - offset (GitUri_fromUri ext u) ->
    blameAnswer (GitUri_fromUri ext u) (lineOrActive editor line)
      = Ok (Some blame) ->
    isUncommitted ext
      (fst (blameTarget (GitUri_fromUri ext u) blame (lineOrActive editor line)))
      = false ->
    ReachesDiff editor uri commit line
      (GitUri_fromUri ext u)
      (fst (blameTarget (GitUri_fromUri ext u) blame (lineOrActive editor line)))
      (snd (blameTarget (GitUri_fromUri ext u) blame (lineOrActive editor line)))
      [blameQuery (GitUri_fromUri ext u) (lineOrActive editor line)].

(** The two file resolutions of the diff stage. *)
Definition currentFileQuery (gitUri : GitUri) : Event :=
  GetVersionedFile (fsPath gitUri) (gitUri_repoPath gitUri) (gitUri_sha gitUri).

Definition currentFileAnswer (gitUri : GitUri) : Outcome string :=
  getVersionedFile host (fsPath gitUri) (gitUri_repoPath gitUri)
    (gitUri_sha gitUri).

Definition commitFileQuery (c : GitCommit) : Event :=
  GetVersionedFile (uri_fsPath ext (CommitUri c)) (repoPath c) (sha c).

Definition commitFileAnswer (c : GitCommit) : Outcome string :=
  getVersionedFile host (uri_fsPath ext (CommitUri c)) (repoPath c) (sha c).

End Execute.

(** *** A concrete editor session *)

Module Demo.

Definition uncommittedSha : string := "0000000000000000000000000000000000000000".

Definition demo_new (repoPath : string) (sha fileName : option string)
    (author date message : string) : GitCommit :=
  {| repoPath := repoPath; sha := sha; fileName := fileName;
     author := author; date := date; message := message;
     previousSha := None; previousFileName := None |}.

Definition demo_uncommitted (sha : option string) : bool :=
  match sha with
  | Some s => String.eqb s uncommittedSha
  | None => false
  end.

(** The file is shown at revision [b2], two lines below the start of the
    blamed range. *)
Definition demo_ext : Externals :=
  {| GitUri_fromUri := fun u =>
       {| offset := 2; fsPath := "/repo/a.ts"; gitUri_sha := Some "b2";
          gitUri_repoPath := "/repo" |};
     GitProvider_isUncommitted := demo_uncommitted;
     isUncommitted := fun c => demo_uncommitted (sha c);
     new_GitCommit := demo_new;
     uri_fsPath := fun u =>
       match u with
       | Uri_file p => p
       | CommitUri c => "/repo/a.ts"
       end;
     path_basename := fun p => "a.ts";
     number_toString := fun n => "n" |}.

Definition committed : GitCommit :=
  {| repoPath := "/repo"; sha := Some "a1"; fileName := Some "a.ts";
     author := "Ada"; date := "today"; message := "first";
     previousSha := None; previousFileName := None |}.

Definition working : GitCommit :=
  {| repoPath := "/repo"; sha := Some uncommittedSha; fileName := Some "a.ts";
     author := "You"; date := "now"; message := "Uncommitted change";
     previousSha := Some "b2"; previousFileName := Some "a.ts" |}.

Definition demo_editor : TextEditor :=
  {| document := Some {| document_uri := Uri_file "/repo/a.ts" |};
     active_line := 7 |}.

(** A host in which every call succeeds; the blame names [blamed]. *)
Definition demo_host (blamed : option GitBlameLine) : Host :=
  {| getBlameForLine := fun _ _ _ _ => Ok blamed;
     getVersionedFile := fun _ _ s => Ok (cat ["/tmp/"; interpolate s]);
     executeCommand := fun c =>
       match c with
       | DiffWithWorking _ _ _ => Ok (HostValue "diff-with-working")
       | Diff _ _ _ => Ok Undefined
       | RevealLine _ _ => Ok (HostValue "revealed")
       end;
     showWarningMessage := fun _ => Ok (HostValue "dismissed");
     showErrorMessage := fun _ => Ok Undefined |}.

(** A host whose git provider cannot produce the versioned files. *)
Definition failing_host : Host :=
  {| getBlameForLine := fun _ _ _ _ => Ok None;
     getVersionedFile := fun _ _ _ => Throw;
     executeCommand := fun _ => Ok Undefined;
     showWarningMessage := fun _ => Ok Undefined;
     showErrorMessage := fun _ => Ok Undefined |}.

End Demo.

(** *** Vocabulary of the properties of the whole run *)

(** The messages shown to the user. *)
Definition isMessage (e : Event) : bool :=
  match e with
  | ShowWarningMessage _ | ShowErrorMessage _ => true
  | _ => false
  end.

Definition isBlameQuery (e : Event) : bool :=
  match e with
  | GetBlameForLine _ _ _ _ => true
  | _ => false
  end.

(** The shapes of what one invocation dispatches. *)
Inductive Dispatches : list HostCommand -> Prop :=
| dispatches_nothing : Dispatches []
| dispatches_working uri commit line :
    Dispatches [DiffWithWorking uri commit line]
| dispatches_diff left right title :
    Dispatches [Diff left right title]
| dispatches_diff_reveal left right title line :
    Dispatches [Diff left right title; RevealLine line "center"].

Module Session.

Import Demo.

(** A host whose blame query is rejected. *)
Definition unblamed_host : Host :=
  {| getBlameForLine := fun _ _ _ _ => Throw;
     getVersionedFile := fun _ _ s => Ok (cat ["/tmp/"; interpolate s]);
     executeCommand := fun _ => Ok Undefined;
     showWarningMessage := fun _ => Ok Undefined;
     showErrorMessage := fun _ => Ok (HostValue "closed") |}.

(** An editor without a document. *)
Definition empty_editor : TextEditor :=
  {| document := None; active_line := 0 |}.

(** The revision [b2] at which the file is shown, as a blame names it, and
    the blame of the line at index 5 of that revision. *)
Definition shown_revision : GitCommit :=
  {| repoPath := "/repo"; sha := Some "b2"; fileName := Some "a.ts";
     author := "Ada"; date := "yesterday"; message := "second";
     previousSha := Some "a1"; previousFileName := Some "a.ts" |}.

Definition shown_blame : GitBlameLine :=
  {| blame_commit := shown_revision; blame_line := 5 |}.

End Session.

End DiffLineWithPrevious.

(** * Properties *)

(** ** Sequencing *)

Module EffectsFacts.

Lemma bind_ok {W A B} (m : M W A) (k : A -> M W B) w a w1 :
  m w = (Ok a, w1) -> bind m k w = k a w1.
Proof. unfold bind; intros ->; reflexivity. Qed.

Lemma bind_throw {W A B} (m : M W A) (k : A -> M W B) w w1 :
  m w = (Throw, w1) -> bind m k w = (Throw, w1).
Proof. unfold bind; intros ->; reflexivity. Qed.

End EffectsFacts.

Import EffectsFacts.

(** ** The quick pick of a commit's file *)

Module CommitFileDetailsSpec.

Import CommitFileDetails.
Local Open Scope list_scope.

Ltac step_js :=
  unfold call, deref, update, bind, ret, throw in *; cbn in *.

Section Facts.

Variable ext : Externals.
Variable git : GitService.
Variable editor : Editor.

(** The remote items: the heap is untouched, only the git service is
    called, and on success a file-remote item (if any) and, for a regular
    commit with remotes, the revision-remote item are appended. *)
Lemma pushRemoteItems_run stash commit c cur items w :
  exists evs,
    snd (pushRemoteItems git stash commit c cur items w)
      = {| heap := heap w; trace := trace w ++ evs |} /\
    forallb isServiceCall evs = true /\
    forall items1,
      fst (pushRemoteItems git stash commit c cur items w) = Ok items1 ->
      exists fileRemote,
        filter commitSpecific fileRemote = [] /\
        items1 = items ++ fileRemote
                 ++ (if stash then []
                     else match providedRemotes git c with
                          | [] => []
                          | remotes =>
                              [MkOpenRemotesCommandQuickPickItem remotes
                                 (RevisionResource (fileName c) commit) cur]
                          end).
Proof.
  unfold pushRemoteItems, providedRemotes. step_js.
  destruct (getRemotes git (repoPath c)) as [all|]; cbn.
  2:{ exists [GetRemotes (repoPath c)]. repeat split. discriminate. }
  destruct (filter (fun r => negb (is_undefined (provider r))) all)
    as [|r remotes] eqn:Hf; cbn.
  { exists [GetRemotes (repoPath c)]. repeat split.
    intros ? [= <-]. exists []. destruct stash; rewrite ?app_nil_r; auto. }
  destruct (workingFileIfNotDeleted c) as [wf|]; cbn.
  - destruct (getBranch git _) as [[b|]|]; cbn.
    + eexists [GetRemotes (repoPath c); GetBranch _].
      rewrite <- app_assoc. repeat split.
      intros ? [= <-].
      exists [MkOpenRemotesCommandQuickPickItem (r :: remotes)
                (FileResource wf (name b)) cur].
      split; [reflexivity|].
      destruct stash; cbn; rewrite <- ?app_assoc, ?app_nil_r; reflexivity.
    + eexists [GetRemotes (repoPath c); GetBranch _].
      rewrite <- app_assoc. repeat split. discriminate.
    + eexists [GetRemotes (repoPath c); GetBranch _].
      rewrite <- app_assoc. repeat split. discriminate.
  - exists [GetRemotes (repoPath c)]. repeat split.
    intros ? [= <-]. exists [].
    destruct stash; cbn; rewrite ?app_nil_r; auto.
Qed.

Lemma revision_item_not_commitSpecific c item :
  commitSpecific (OpenCommitFileRevisionCommandQuickPickItem ext c item) = false.
Proof.
  unfold OpenCommitFileRevisionCommandQuickPickItem.
  destruct (deleted c); reflexivity.
Qed.

(** The items of the picker are the go-back item, if any, followed by a
    body whose commit-specific actions are none for a stash and
    [commitActions] for a regular commit. *)
Lemma picker_items stash wn commit c uri goBack cur fileLog fileRemote :
  filter commitSpecific fileRemote = [] ->
  exists body,
    itemsAfterRemotes ext stash c goBack cur fileLog
      (itemsBeforeRemotes ext stash wn commit c uri cur ++ fileRemote
       ++ (if stash then []
           else match providedRemotes git c with
                | [] => []
                | remotes =>
                    [MkOpenRemotesCommandQuickPickItem remotes
                       (RevisionResource (fileName c) commit) cur]
                end))
    = goBackItems goBack ++ body /\
    filter commitSpecific body
    = if stash then [] else commitActions ext git commit c uri cur.
Proof.
  intros Hfr. unfold itemsAfterRemotes.
  eexists. split.
  { destruct goBack; cbn; reflexivity. }
  unfold itemsBeforeRemotes, commitActions, push_if.
  destruct stash; cbn;
    destruct (truthy (previousSha c)); cbn;
    destruct (truthy_value (workingFileName c)); cbn;
    destruct (workingFileIfNotDeleted c); cbn;
    destruct (providedRemotes git c); cbn;
    repeat (rewrite filter_app; cbn);
    rewrite ?revision_item_not_commitSpecific, ?Hfr; reflexivity.
Qed.

(** Every call of [show_commit]. *)
Lemma show_commit_event stash wn unc commit uri goBack cur fileLog w e :
  In e (trace (snd (show_commit ext git editor stash wn unc commit uri goBack
                      cur fileLog w))) ->
  In e (trace w) \/ isServiceCall e = true \/ e = ScopeDispose \/
  e = BeginScope (mappingOf stash commit (heap w commit) uri goBack fileLog) \/
  exists body options,
    e = ShowQuickPick (goBackItems goBack ++ body) options /\
    filter commitSpecific body
    = if stash then []
      else commitActions ext git commit (heap w commit) uri cur.
Proof.
  unfold show_commit. unfold bind at 1. unfold deref at 1.
  set (c := heap w commit).
  set (items0 := itemsBeforeRemotes ext stash wn commit c uri cur).
  destruct (pushRemoteItems_run stash commit c cur items0 w)
    as (evs & Hsnd & Hevs & Hitems).
  unfold bind at 1.
  destruct (pushRemoteItems git stash commit c cur items0 w) as [[items1|] w1];
    cbn in Hsnd; subst w1.
  2:{ cbn. intros Hin. apply in_app_or in Hin as [Hin|Hin]; auto.
      right; left. rewrite forallb_forall in Hevs. auto. }
  destruct (Hitems items1 eq_refl) as (fileRemote & Hfr & ->).
  subst items0.
  destruct (picker_items stash wn commit c uri goBack cur fileLog fileRemote Hfr)
    as (body & -> & Hbody).
  fold (mappingOf stash commit c uri goBack fileLog).
  set (Q := In e (trace w) \/ isServiceCall e = true \/ e = ScopeDispose \/
               e = BeginScope (mappingOf stash commit c uri goBack fileLog) \/
               exists body options,
                 e = ShowQuickPick (goBackItems goBack ++ body) options /\
                 filter commitSpecific body
                 = if stash then []
                   else commitActions ext git commit c uri cur).
  assert (Hpre : forall tail,
             (In e tail -> Q) -> In e (trace w ++ evs ++ tail) -> Q).
  { intros tail Htail Hin.
    apply in_app_or in Hin as [Hin|Hin]; [left; exact Hin|].
    apply in_app_or in Hin as [Hin|Hin]; auto.
    right; left. rewrite forallb_forall in Hevs. auto. }
  assert (Hscope : e = BeginScope (mappingOf stash commit c uri goBack fileLog)
                   -> Q) by (subst Q; auto).
  assert (Hpick : forall options,
             e = ShowQuickPick (goBackItems goBack ++ body) options -> Q)
    by (subst Q; eauto 10).
  assert (Hdispose : e = ScopeDispose -> Q) by (subst Q; auto).
  clearbody Q.
  cbv beta iota delta [call bind ret].
  destruct (beginScope editor _); cbn [fst snd trace heap].
  2:{ rewrite <- app_assoc. apply Hpre. intros [<-|[]]; auto. }
  destruct (showQuickPick editor _ _); cbn [fst snd trace heap].
  2:{ rewrite <- !app_assoc. apply Hpre. cbn [app].
      intros [<-|[<-|[]]]; eauto. }
  destruct (dispose editor); cbn [fst snd trace heap];
    rewrite <- !app_assoc; apply Hpre; cbn [app];
    intros [<-|[<-|[<-|[]]]]; eauto.
Qed.

(** When the remotes are listed and the editor accepts the key scope, the
    picker is opened; [show_commit] returns what the user picks there. *)
Lemma show_commit_returns_pick stash wn unc commit uri goBack cur fileLog w
    items1 pick :
  let c := heap w commit in
  let options :=
    {| matchOnDescription := true;
       placeHolder := placeHolderOf ext unc c;
       ignoreFocusOut := getQuickPickIgnoreFocusOut ext;
       onDidSelectItem := SetRightKeyCommand |} in
  let items := itemsAfterRemotes ext stash c goBack cur fileLog items1 in
  fst (pushRemoteItems git stash commit c cur
         (itemsBeforeRemotes ext stash wn commit c uri cur) w) = Ok items1 ->
  beginScope editor (mappingOf stash commit c uri goBack fileLog) = Ok tt ->
  showQuickPick editor items options = Ok pick ->
  dispose editor = Ok tt ->
  fst (show_commit ext git editor stash wn unc commit uri goBack cur fileLog w)
  = Ok pick /\
  In (ShowQuickPick items options)
     (trace (snd (show_commit ext git editor stash wn unc commit uri goBack
                    cur fileLog w))).
Proof.
  intros c options items Hpush Hscope Hpick Hdispose.
  destruct (pushRemoteItems git stash commit c cur
              (itemsBeforeRemotes ext stash wn commit c uri cur) w)
    as [[items2|] w1] eqn:Hp; [|discriminate].
  cbn [fst] in Hpush. injection Hpush as ->.
  assert (Hrun :
    show_commit ext git editor stash wn unc commit uri goBack cur fileLog w
    = (Ok pick,
       {| heap := heap w1;
          trace := trace w1
                   ++ [BeginScope (mappingOf stash commit c uri goBack fileLog);
                       ShowQuickPick items options; ScopeDispose] |})).
  { unfold show_commit.
    rewrite (bind_ok (deref commit) _ w c w) by reflexivity.
    rewrite (bind_ok _ _ _ _ _ Hp).
    fold items options (mappingOf stash commit c uri goBack fileLog).
    cbv beta iota delta [call bind ret].
    rewrite Hscope, Hpick, Hdispose. cbn [heap trace].
    rewrite <- !app_assoc. reflexivity. }
  rewrite Hrun. cbn [fst snd trace]. split; [reflexivity|].
  apply in_or_app. right. right. left. reflexivity.
Qed.

(** Every call of [show]: calls into the git service, the disposal of the
    key scope, and, for the commit shown, the key scope and the picker. *)
Lemma show_event commit uri goBack cur fileLog h e :
  In e (events_of (show ext git editor commit uri goBack cur fileLog) h) ->
  isServiceCall e = true \/ e = ScopeDispose \/
  exists shown,
    shownCommit ext git h commit = Some shown /\
    (e = BeginScope
           (mappingOf (isStash (h commit)) shown (h shown) uri goBack fileLog) \/
     exists body options,
       e = ShowQuickPick (goBackItems goBack ++ body) options /\
       filter commitSpecific body
       = if isStash (h commit) then []
         else commitActions ext git shown (h shown) uri cur).
Proof.
  unfold events_of, run, show, shownCommit.
  unfold bind at 1. unfold deref at 1. cbn [heap].
  destruct (isUncommitted ext (h commit)).
  - unfold bind at 1. unfold call at 1. cbn [heap trace].
    destruct (getLogCommit git None _ true) as [[found|]|]; cbn [app].
    + intros Hin. apply show_commit_event in Hin.
      cbn [heap trace] in Hin.
      destruct Hin as [[<-|[]]|[?|[?|Hin]]]; auto.
      right; right. exists found. split; [reflexivity|]. exact Hin.
    + cbn. intros [<-|[]]. auto.
    + cbn. intros [<-|[]]. auto.
  - intros Hin. apply show_commit_event in Hin. cbn [heap trace] in Hin.
    destruct Hin as [[]|[?|[?|Hin]]]; auto.
    right; right. exists commit. split; [reflexivity|]. exact Hin.
Qed.

(** [show] itself never asks for more history. *)
Lemma show_no_history_query commit uri goBack cur fileLog h e :
  In e (events_of (show ext git editor commit uri goBack cur fileLog) h) ->
  isHistoryQuery e = false.
Proof.
  intros Hin. apply show_event in Hin.
  destruct Hin as [He|[->|(shown & _ & [->|(body & options & -> & _)])]];
    try reflexivity.
  destruct e; try discriminate; reflexivity.
Qed.

(** C5.  The revision item opens the revision before the deletion, named
    by [previousSha] and [previousFileName], when the status of the commit
    is ['D'], and the revision of the commit itself otherwise. *)
Theorem revision_item_target (commit : GitLogCommit) (item : option QuickPickItem) :
  (status commit = Some "D" ->
   openedUri (OpenCommitFileRevisionCommandQuickPickItem ext commit item)
   = Some (GitContentUri (previousSha commit) (previousFileName commit)
             (repoPath commit) None)) /\
  (status commit <> Some "D" ->
   openedUri (OpenCommitFileRevisionCommandQuickPickItem ext commit item)
   = Some (GitContentUriOfCommit commit)).
Proof.
  unfold OpenCommitFileRevisionCommandQuickPickItem, deleted. split.
  - intros ->. reflexivity.
  - intros Hs. destruct (status commit) as [st|]; [|reflexivity].
    destruct (String.eqb_spec st "D") as [->|_]; [congruence | reflexivity].
Qed.

(** C10.  When a go-back command is given, it is the first item of every
    picker that [show] opens; the actions follow it. *)
Theorem goBack_is_first commit uri back cur fileLog h items options :
  In (ShowQuickPick items options)
     (events_of (show ext git editor commit uri (Some back) cur fileLog) h) ->
  hd_error items = Some back /\ exists body, items = back :: body.
Proof.
  intros Hin. apply show_event in Hin.
  destruct Hin as [He|[He|(shown & _ & [He|(body & opts & He & _)])]];
    try discriminate.
  injection He as -> _. cbn. eauto.
Qed.

(** C3.  For a regular commit and a complete file history, the previous
    and next key commands that [show] installs are items built from the
    [previousSha] and [nextSha] of the commit shown: each is absent exactly
    when that sha is undefined, neither is a closure that could query git,
    and [show] makes no history query. *)
Theorem full_history_navigation commit uri goBack cur fileLog h mapping :
  isStash (h commit) = false ->
  fullHistory fileLog = true ->
  In (BeginScope mapping)
     (events_of (show ext git editor commit uri goBack cur fileLog) h) ->
  exists shown,
    shownCommit ext git h commit = Some shown /\
    comma mapping
    = option_map
        (fun p => KeyStatic (showCommitFileDetailsKey
                               (CommitPreviousUri (h shown)) fileLog p goBack))
        (previousSha (h shown)) /\
    dot mapping
    = option_map
        (fun n => KeyStatic (showCommitFileDetailsKey
                               (CommitNextUri (h shown)) fileLog n goBack))
        (nextSha (h shown)) /\
    (comma mapping = None <-> previousSha (h shown) = None) /\
    (dot mapping = None <-> nextSha (h shown) = None) /\
    (forall f, comma mapping <> Some (KeyLazy f)) /\
    (forall f, dot mapping <> Some (KeyLazy f)) /\
    (forall e,
       In e (events_of (show ext git editor commit uri goBack cur fileLog) h) ->
       isHistoryQuery e = false).
Proof.
  intros Hstash Hfull Hin.
  pose proof Hin as Hin'. apply show_event in Hin'.
  destruct Hin' as [He|[He|(shown & Hshown & [He|(body & opts & He & _)])]];
    try discriminate.
  injection He as ->. exists shown. split; [exact Hshown|].
  rewrite Hstash. unfold mappingOf, previousCommand, nextCommand.
  cbn [comma dot negb]. rewrite Hfull.
  repeat split;
    try (destruct (previousSha (h shown)); cbn; congruence);
    try (destruct (nextSha (h shown)); cbn; congruence).
  intros e. apply show_no_history_query.
Qed.

(** C6.  In every picker that [show] opens the items are the go-back item,
    if any, and a body; the body of a stash has no commit-specific action,
    that of a regular commit has those of [commitActions].  For a stash the
    previous and next keys are left unbound; for a regular commit each is
    bound unless the history is complete and the commit has no such link. *)
Theorem stash_has_no_commit_actions commit uri goBack cur fileLog h :
  (forall items options,
     In (ShowQuickPick items options)
        (events_of (show ext git editor commit uri goBack cur fileLog) h) ->
     exists shown body,
       shownCommit ext git h commit = Some shown /\
       items = goBackItems goBack ++ body /\
       filter commitSpecific body
       = if isStash (h commit) then []
         else commitActions ext git shown (h shown) uri cur) /\
  (forall mapping,
     In (BeginScope mapping)
        (events_of (show ext git editor commit uri goBack cur fileLog) h) ->
     exists shown,
       shownCommit ext git h commit = Some shown /\
       if isStash (h commit)
       then comma mapping = None /\ dot mapping = None
       else (comma mapping = None <->
             fullHistory fileLog = true /\ previousSha (h shown) = None) /\
            (dot mapping = None <->
             fullHistory fileLog = true /\ nextSha (h shown) = None)).
Proof.
  split.
  - intros items options Hin. apply show_event in Hin.
    destruct Hin as [He|[He|(shown & Hshown & [He|(body & opts & He & Hb)])]];
      try discriminate.
    injection He as -> _. eauto.
  - intros mapping Hin. apply show_event in Hin.
    destruct Hin as [He|[He|(shown & Hshown & [He|(body & opts & He & _)])]];
      try discriminate.
    injection He as ->. exists shown. split; [exact Hshown|].
    unfold mappingOf, previousCommand, nextCommand. cbn [comma dot].
    destruct (isStash (h commit)); cbn [negb]; [split; reflexivity|].
    destruct (fullHistory fileLog);
      destruct (previousSha (h shown)); destruct (nextSha (h shown));
      repeat split; intros; try discriminate; try tauto;
      match goal with H : _ /\ _ |- _ => destruct H; discriminate end.
Qed.

(** C9.  For an uncommitted commit, [show] first asks the git service for
    the last committed revision of the file.  When there is none it returns
    [undefined] and calls nothing else; when there is one, it goes on with
    that commit in place of the given one. *)
Theorem uncommitted_is_replaced commit uri goBack cur fileLog h :
  isUncommitted ext (h commit) = true ->
  let query := GetLogCommit None (fsPath ext (CommitUri (h commit))) true in
  let answer := getLogCommit git None (fsPath ext (CommitUri (h commit))) true in
  hd_error (events_of (show ext git editor commit uri goBack cur fileLog) h)
    = Some query /\
  (answer = Ok None ->
   result_of (show ext git editor commit uri goBack cur fileLog) h = Ok None /\
   events_of (show ext git editor commit uri goBack cur fileLog) h = [query]) /\
  (forall found,
     answer = Ok (Some found) ->
     run (show ext git editor commit uri goBack cur fileLog) h
     = show_commit ext git editor (isStash (h commit))
         (workingNameOf ext (h commit)) true found uri goBack cur fileLog
         {| heap := h; trace := [query] |}).
Proof.
  intros Hunc query answer.
  assert (Hrun : run (show ext git editor commit uri goBack cur fileLog) h
                 = match answer with
                   | Ok (Some found) =>
                       show_commit ext git editor (isStash (h commit))
                         (workingNameOf ext (h commit)) true found uri goBack
                         cur fileLog {| heap := h; trace := [query] |}
                   | Ok None => (Ok None, {| heap := h; trace := [query] |})
                   | Throw => (Throw, {| heap := h; trace := [query] |})
                   end).
  { unfold run, show. unfold bind at 1. unfold deref at 1. cbn [heap].
    rewrite Hunc. unfold bind at 1. unfold call at 1. cbn [heap trace app].
    fold answer query. destruct answer as [[found|]|]; reflexivity. }
  split; [|split].
  - unfold events_of. rewrite Hrun.
    destruct answer as [[found|]|]; try reflexivity.
    unfold show_commit. unfold bind at 1. unfold deref at 1. cbn [heap].
    set (c := h found).
    destruct (pushRemoteItems_run (isStash (h commit)) found c cur
                (itemsBeforeRemotes ext (isStash (h commit))
                   (workingNameOf ext (h commit)) found c uri cur)
                {| heap := h; trace := [query] |})
      as (evs & Hsnd & _ & _).
    unfold bind at 1.
    destruct (pushRemoteItems git _ found c cur _ _) as [[items1|] w1];
      cbn in Hsnd; subst w1; [|reflexivity].
    cbv beta iota delta [call bind ret].
    destruct (beginScope editor _); [|reflexivity].
    destruct (showQuickPick editor _ _); [|reflexivity].
    destruct (dispose editor); reflexivity.
  - intros Ha. unfold result_of, events_of. rewrite Hrun, Ha. auto.
  - intros found Ha. rewrite Hrun, Ha. reflexivity.
Qed.

(** With an incomplete history, [show] binds the previous and next keys
    of a regular commit to the two closures. *)
Lemma partial_history_closures commit uri goBack cur fileLog h mapping :
  isStash (h commit) = false ->
  fullHistory fileLog = false ->
  In (BeginScope mapping)
     (events_of (show ext git editor commit uri goBack cur fileLog) h) ->
  exists shown,
    shownCommit ext git h commit = Some shown /\
    comma mapping = Some (KeyLazy (PreviousCommandFn shown uri goBack fileLog)) /\
    dot mapping = Some (KeyLazy (NextCommandFn shown uri goBack fileLog)).
Proof.
  intros Hstash Hpartial Hin. apply show_event in Hin.
  destruct Hin as [He|[He|(shown & Hshown & [He|(body & opts & He & _)])]];
    try discriminate.
  injection He as ->. exists shown. split; [exact Hshown|].
  rewrite Hstash. unfold mappingOf, previousCommand, nextCommand.
  cbn [comma dot negb]. rewrite Hpartial. auto.
Qed.

(** The run of the [previousCommand] closure on a stale link. *)
Lemma previousCommand_async_stale shown uri goBack fileLog h' t :
  stale_previous h' fileLog shown = true ->
  let cm := h' shown in
  let query := GetLogForFile (repoPath cm) (fsPath ext uri) (sha cm)
                 (maxQuickHistory git) in
  previousCommand_async ext git shown uri goBack fileLog
    {| heap := h'; trace := t |}
  = match getLogForFile git (repoPath cm) (fsPath ext uri) (sha cm)
            (maxQuickHistory git) with
    | Throw => (Throw, {| heap := h'; trace := t ++ [query] |})
    | Ok None => (Ok KeyNoopCommand, {| heap := h'; trace := t ++ [query] |})
    | Ok (Some log) =>
        match refetchedCommit ext log cm with
        | None => (Ok KeyNoopCommand, {| heap := h'; trace := t ++ [query] |})
        | Some c =>
            (match previousSha (h' c) with
             | None => Ok KeyNoopCommand
             | Some p =>
                 Ok (KeyItem
                       (showCommitFileDetailsKey
                          (CommitPreviousUri
                             (set_next (nextSha cm) (nextFileName cm) (h' c)))
                          (Some log) p goBack))
             end,
             {| heap := fun l =>
                  if Nat.eqb l c
                  then set_next (nextSha cm) (nextFileName cm) (h' l)
                  else h' l;
                trace := t ++ [query] |})
        end
    end.
Proof.
  intros Hstale cm query.
  assert (Hun : previous_unavailable (lookup_commit fileLog (sha cm))
                  {| heap := h'; trace := t |}
                = (Ok true, {| heap := h'; trace := t |})).
  { unfold stale_previous in Hstale. fold cm in Hstale.
    unfold lookup_commit, previous_unavailable.
    destruct fileLog as [log|]; [|reflexivity].
    destruct (commits_get (commits log) (sha cm)) as [c|]; [|reflexivity].
    unfold bind, deref, ret. cbn [heap]. rewrite Hstale. reflexivity. }
  unfold previousCommand_async.
  rewrite (bind_ok (deref shown) _ _ cm {| heap := h'; trace := t |})
    by reflexivity.
  rewrite (bind_ok _ _ _ _ _ Hun).
  unfold bind at 1. unfold call at 1. cbn [heap trace]. fold query.
  destruct (getLogForFile git _ _ _ _) as [[log|]|]; try reflexivity.
  destruct (refetchedCommit ext log cm) as [c|]; [|reflexivity].
  unfold previousCommand_result, update, bind, deref, ret. cbn [heap trace].
  rewrite Nat.eqb_refl. fold cm. cbn [previousSha set_next].
  destruct (previousSha (h' c)); reflexivity.
Qed.

(** C1, as amended.  For a regular commit and an incomplete file history,
    [show] binds the previous key to a closure.  Called when the cached
    link is stale, the closure makes one call, the query of the log of the
    file from the commit with at most [maxQuickHistory] entries, and
    answers from the log it gets: no log, no commit in it, or a commit
    without previous sha give the no-op command; otherwise the command
    opens the previous revision of the re-fetched commit with that log. *)
Theorem previous_requeries_log commit uri goBack cur fileLog h :
  isStash (h commit) = false ->
  fullHistory fileLog = false ->
  (forall mapping,
     In (BeginScope mapping)
        (events_of (show ext git editor commit uri goBack cur fileLog) h) ->
     exists shown,
       shownCommit ext git h commit = Some shown /\
       comma mapping
       = Some (KeyLazy (PreviousCommandFn shown uri goBack fileLog))) /\
  (forall shown h',
     stale_previous h' fileLog shown = true ->
     let cm := h' shown in
     let closure := invoke ext git (PreviousCommandFn shown uri goBack fileLog) in
     events_of closure h'
     = [GetLogForFile (repoPath cm) (fsPath ext uri) (sha cm)
          (maxQuickHistory git)] /\
     match getLogForFile git (repoPath cm) (fsPath ext uri) (sha cm)
             (maxQuickHistory git) with
     | Throw => result_of closure h' = Throw
     | Ok None => result_of closure h' = Ok KeyNoopCommand
     | Ok (Some log) =>
         match refetchedCommit ext log cm with
         | None => result_of closure h' = Ok KeyNoopCommand
         | Some c =>
             match previousSha (h' c) with
             | None => result_of closure h' = Ok KeyNoopCommand
             | Some p =>
                 result_of closure h'
                 = Ok (KeyItem
                         (showCommitFileDetailsKey
                            (CommitPreviousUri
                               (set_next (nextSha cm) (nextFileName cm) (h' c)))
                            (Some log) p goBack))
             end
         end
     end).
Proof.
  intros Hstash Hpartial. split.
  - intros mapping Hin.
    destruct (partial_history_closures _ _ _ _ _ _ _ Hstash Hpartial Hin)
      as (shown & Hshown & Hc & _).
    eauto.
  - intros shown h' Hstale cm closure. subst closure.
    unfold events_of, result_of, run, invoke.
    rewrite (previousCommand_async_stale _ _ _ _ _ _ Hstale). fold cm.
    cbn [app].
    destruct (getLogForFile git _ _ _ _) as [[log|]|]; cbn [fst snd trace];
      auto.
    destruct (refetchedCommit ext log cm) as [c|]; cbn [fst snd trace]; auto.
    destruct (previousSha (h' c)); auto.
Qed.

(** The run of the [nextCommand] closure on a stale link. *)
Lemma nextCommand_async_stale shown uri goBack fileLog h' t :
  stale_next h' fileLog shown = true ->
  let cm := h' shown in
  let query := FindNextCommit (repoPath cm) (fsPath ext uri) (sha cm) in
  exists heap',
    nextCommand_async ext git shown uri goBack fileLog
      {| heap := h'; trace := t |}
    = (match findNextCommit git (repoPath cm) (fsPath ext uri) (sha cm) with
       | Throw => Throw
       | Ok None => Ok KeyNoopCommand
       | Ok (Some next) =>
           if String.eqb (sha (h' next)) (sha cm)
           then Ok KeyNoopCommand
           else
             Ok (KeyItem
                   (showCommitFileDetailsKey
                      (CommitNextUri
                         (set_next (Some (sha (h' next)))
                            (Some (or_else (originalFileName (h' next))
                                     (fileName (h' next))))
                            cm))
                      None (sha (h' next)) goBack))
       end,
       {| heap := heap'; trace := t ++ [query] |}).
Proof.
  intros Hstale cm query.
  assert (Hun : next_unavailable (lookup_commit fileLog (sha cm))
                  {| heap := h'; trace := t |}
                = (Ok true, {| heap := h'; trace := t |})).
  { unfold stale_next in Hstale. fold cm in Hstale.
    unfold lookup_commit, next_unavailable.
    destruct fileLog as [log|]; [|reflexivity].
    destruct (commits_get (commits log) (sha cm)) as [c|]; [|reflexivity].
    unfold bind, deref, ret. cbn [heap]. rewrite Hstale. reflexivity. }
  unfold nextCommand_async.
  rewrite (bind_ok (deref shown) _ _ cm {| heap := h'; trace := t |})
    by reflexivity.
  rewrite (bind_ok _ _ _ _ _ Hun).
  unfold bind at 1. unfold call at 1. cbn [heap trace]. fold query.
  destruct (findNextCommit git _ _ _) as [[next|]|];
    [| eexists; reflexivity | eexists; reflexivity].
  unfold bind at 1. unfold bind at 1. unfold deref at 1.
  cbn [heap]. unfold bind at 1. unfold deref at 1. cbn [heap]. fold cm.
  destruct (String.eqb_spec (sha (h' next)) (sha cm)) as [Heq|Hne];
    cbn [negb]; [eexists; reflexivity|].
  assert (Hloc : Nat.eqb next shown = false).
  { apply Nat.eqb_neq. intros ->. apply Hne. reflexivity. }
  unfold nextCommand_result, update, bind, deref, ret. cbn [heap trace].
  rewrite Nat.eqb_refl, Hloc. cbn [nextSha set_next fst snd trace].
  fold cm. eexists; reflexivity.
Qed.

(** C2, as amended.  For a regular commit and an incomplete file history,
    [show] binds the next key to a closure.  Called when the cached link is
    stale, the closure makes one call, [findNextCommit] for the file from
    the commit, and answers with a command for the commit found exactly
    when one is found whose sha differs from that of the current commit;
    when none or the same commit is found it answers the no-op command. *)
Theorem next_requeries_git commit uri goBack cur fileLog h :
  isStash (h commit) = false ->
  fullHistory fileLog = false ->
  (forall mapping,
     In (BeginScope mapping)
        (events_of (show ext git editor commit uri goBack cur fileLog) h) ->
     exists shown,
       shownCommit ext git h commit = Some shown /\
       dot mapping = Some (KeyLazy (NextCommandFn shown uri goBack fileLog))) /\
  (forall shown h',
     stale_next h' fileLog shown = true ->
     let cm := h' shown in
     let closure := invoke ext git (NextCommandFn shown uri goBack fileLog) in
     let answer := findNextCommit git (repoPath cm) (fsPath ext uri) (sha cm) in
     events_of closure h'
     = [FindNextCommit (repoPath cm) (fsPath ext uri) (sha cm)] /\
     match answer with
     | Throw => result_of closure h' = Throw
     | Ok None => result_of closure h' = Ok KeyNoopCommand
     | Ok (Some next) =>
         if String.eqb (sha (h' next)) (sha cm)
         then result_of closure h' = Ok KeyNoopCommand
         else
           result_of closure h'
           = Ok (KeyItem
                   (showCommitFileDetailsKey
                      (CommitNextUri
                         (set_next (Some (sha (h' next)))
                            (Some (or_else (originalFileName (h' next))
                                     (fileName (h' next))))
                            cm))
                      None (sha (h' next)) goBack))
     end /\
     ((exists item, result_of closure h' = Ok (KeyItem item)) <->
      (exists next, answer = Ok (Some next) /\ sha (h' next) <> sha cm))).
Proof.
  intros Hstash Hpartial. split.
  - intros mapping Hin.
    destruct (partial_history_closures _ _ _ _ _ _ _ Hstash Hpartial Hin)
      as (shown & Hshown & _ & Hd).
    eauto.
  - intros shown h' Hstale cm closure answer.
    destruct (nextCommand_async_stale shown uri goBack fileLog h' [] Hstale)
      as [heap' Hrun].
    fold cm answer in Hrun.
    subst closure. unfold events_of, result_of, run, invoke.
    rewrite Hrun. clear Hrun. cbn [fst snd trace app].
    split; [reflexivity|]. split.
    + destruct answer as [[next|]|]; auto.
      destruct (String.eqb (sha (h' next)) (sha cm)); reflexivity.
    + split.
      * intros [item Hitem]. destruct answer as [[next|]|]; try discriminate.
        exists next. split; [reflexivity|].
        destruct (String.eqb_spec (sha (h' next)) (sha cm)); [discriminate|auto].
      * intros (next & -> & Hne).
        destruct (String.eqb_spec (sha (h' next)) (sha cm)); [contradiction|].
        eauto.
Qed.

End Facts.

Import Demo.

(** The picker of the second commit and the picker of a stash, as the user
    reads them. *)
Example regular_picker :
  pickers (events_of (show demo_ext (demo_git None) demo_editor 1 demo_uri
                        (Some back) None (Some full_log)) demo_heap)
  = [["go back";
      "$(git-commit) Show Commit Details";
      "$(git-compare) Compare File with Previous Revision";
      "$(git-compare) Compare File with Working Revision";
      "$(clippy) Copy Commit ID to Clipboard";
      "$(clippy) Copy Message to Clipboard";
      "$(file-symlink-file) Open File";
      "$(file-symlink-file) Open Revision";
      "open file in remote";
      "open revision in remote";
      "$(history) Show File History";
      "$(history) Show Previous File History"]].
Proof. reflexivity. Qed.

Example stash_picker :
  pickers (events_of (show demo_ext (demo_git None) demo_editor 2 demo_uri
                        (Some back) None (Some full_log)) demo_heap)
  = [["go back";
      "$(git-compare) Compare File with Working Revision";
      "$(file-symlink-file) Open File";
      "$(file-symlink-file) Open Revision";
      "open file in remote";
      "$(history) Show File History"]].
Proof. reflexivity. Qed.

(** The calls of [show] for uncommitted changes whose file has a last
    commit: the picker is that of the commit found. *)
Example uncommitted_calls :
  filter isServiceCall
    (events_of (show demo_ext (demo_git (Some 1)) demo_editor 3 demo_uri
                  None None (Some truncated_log)) demo_heap)
  = [GetLogCommit None "/repo/a.ts" true; GetRemotes "/repo"; GetBranch "/repo"].
Proof. reflexivity. Qed.

(** A deleted file is opened at [b2], the revision before the deletion; a
    modified one at its own revision. *)
Lemma revision_item_target_witness :
  openedUri (OpenCommitFileRevisionCommandQuickPickItem demo_ext removal None)
  = Some (GitContentUri (Some "b2") (Some "a.ts") "/repo" None) /\
  openedUri (OpenCommitFileRevisionCommandQuickPickItem demo_ext (demo_heap 1) None)
  = Some (GitContentUriOfCommit (demo_heap 1)).
Proof.
  split.
  - exact (proj1 (revision_item_target demo_ext removal None) eq_refl).
  - exact (proj2 (revision_item_target demo_ext (demo_heap 1) None)
             ltac:(vm_compute; discriminate)).
Defined.

(** The second commit, opened from a history picker. *)
Lemma goBack_is_first_witness :
  exists items options,
    In (ShowQuickPick items options)
       (events_of (show demo_ext (demo_git None) demo_editor 1 demo_uri
                     (Some back) None (Some full_log)) demo_heap) /\
    hd_error items = Some back.
Proof.
  assert (H : exists items options,
             In (ShowQuickPick items options)
                (events_of (show demo_ext (demo_git None) demo_editor 1 demo_uri
                              (Some back) None (Some full_log)) demo_heap)).
  { eexists; eexists. vm_compute. do 3 right. left. reflexivity. }
  destruct H as (items & options & Hin).
  exists items, options. split; [exact Hin|].
  exact (proj1 (goBack_is_first demo_ext (demo_git None) demo_editor 1 demo_uri
                  back None (Some full_log) demo_heap items options Hin)).
Defined.

(** The first commit of the file with its whole history: no previous key,
    and a next key that is an item, not a closure. *)
Lemma full_history_navigation_witness :
  exists mapping,
    In (BeginScope mapping)
       (events_of (show demo_ext (demo_git None) demo_editor 0 demo_uri
                     None None (Some full_log)) demo_heap) /\
    exists shown,
      shownCommit demo_ext (demo_git None) demo_heap 0 = Some shown /\
      (comma mapping = None <-> previousSha (demo_heap shown) = None) /\
      (dot mapping = None <-> nextSha (demo_heap shown) = None) /\
      (forall f, dot mapping <> Some (KeyLazy f)).
Proof.
  assert (H : exists mapping,
             In (BeginScope mapping)
                (events_of (show demo_ext (demo_git None) demo_editor 0 demo_uri
                              None None (Some full_log)) demo_heap)).
  { eexists. vm_compute. do 2 right. left. reflexivity. }
  destruct H as (mapping & Hin).
  exists mapping. split; [exact Hin|].
  destruct (full_history_navigation demo_ext (demo_git None) demo_editor 0
              demo_uri None None (Some full_log) demo_heap mapping
              eq_refl eq_refl Hin)
    as (shown & Hshown & _ & _ & Hc & Hd & _ & Hl & _).
  exists shown. auto.
Defined.

(** The picker of a stash, opened from a list of stashes. *)
Lemma stash_has_no_commit_actions_witness :
  exists items options,
    In (ShowQuickPick items options)
       (events_of (show demo_ext (demo_git None) demo_editor 2 demo_uri
                     (Some back) None None) demo_heap) /\
    exists body,
      items = back :: body /\ filter commitSpecific body = [].
Proof.
  assert (H : exists items options,
             In (ShowQuickPick items options)
                (events_of (show demo_ext (demo_git None) demo_editor 2 demo_uri
                              (Some back) None None) demo_heap)).
  { eexists; eexists. vm_compute. do 3 right. left. reflexivity. }
  destruct H as (items & options & Hin).
  exists items, options. split; [exact Hin|].
  destruct (proj1 (stash_has_no_commit_actions demo_ext (demo_git None)
                     demo_editor 2 demo_uri (Some back) None None demo_heap)
              items options Hin)
    as (shown & body & _ & Hitems & Hbody).
  exists body. split; [exact Hitems | exact Hbody].
Defined.

(** Uncommitted changes of a file that was never committed. *)
Lemma uncommitted_is_replaced_witness :
  result_of (show demo_ext (demo_git None) demo_editor 3 demo_uri None None None)
            demo_heap
  = Ok None /\
  events_of (show demo_ext (demo_git None) demo_editor 3 demo_uri None None None)
            demo_heap
  = [GetLogCommit None "/repo/a.ts" true].
Proof.
  exact (proj1 (proj2 (uncommitted_is_replaced demo_ext (demo_git None)
                         demo_editor 3 demo_uri None None None demo_heap
                         eq_refl))
               eq_refl).
Defined.

(** The second commit, opened without a file log: the log is asked for,
    and the first commit found in it. *)
Lemma previous_requeries_log_witness :
  stale_previous demo_heap None 1 = true /\
  events_of (invoke demo_ext (demo_git None)
               (PreviousCommandFn 1 demo_uri None None)) demo_heap
  = [GetLogForFile "/repo" "/repo/a.ts" "b2" 200] /\
  result_of (invoke demo_ext (demo_git None)
               (PreviousCommandFn 1 demo_uri None None)) demo_heap
  = Ok (KeyItem
          (showCommitFileDetailsKey (CommitPreviousUri (demo_heap 1))
             (Some full_log) "a1" None)).
Proof.
  split; [reflexivity|].
  exact (proj2 (previous_requeries_log demo_ext (demo_git None) demo_editor 1
                  demo_uri None None None demo_heap eq_refl eq_refl)
               1 demo_heap eq_refl).
Defined.

(** C1 does not hold when the history is complete: the first commit of the
    file is found in the complete log without a previous sha, which C1
    counts as a stale link, yet [show] leaves the previous key unbound and
    no log is queried. *)
Lemma previous_not_requeried_with_full_history :
  isStash (demo_heap 0) = false /\
  stale_previous demo_heap (Some full_log) 0 = true /\
  map comma
    (scopes (events_of (show demo_ext (demo_git None) demo_editor 0 demo_uri
                          None None (Some full_log)) demo_heap))
  = [None] /\
  filter isHistoryQuery
    (events_of (show demo_ext (demo_git None) demo_editor 0 demo_uri
                  None None (Some full_log)) demo_heap)
  = [].
Proof. repeat split. Qed.

(** The second commit, whose successor no cached link knows. *)
Lemma next_requeries_git_witness :
  stale_next demo_heap (Some truncated_log) 1 = true /\
  events_of (invoke demo_ext (demo_git None)
               (NextCommandFn 1 demo_uri None (Some truncated_log))) demo_heap
  = [FindNextCommit "/repo" "/repo/a.ts" "b2"] /\
  exists item,
    result_of (invoke demo_ext (demo_git None)
                 (NextCommandFn 1 demo_uri None (Some truncated_log))) demo_heap
    = Ok (KeyItem item).
Proof.
  split; [reflexivity|].
  destruct (proj2 (next_requeries_git demo_ext (demo_git None) demo_editor 1
                     demo_uri None None (Some truncated_log) demo_heap
                     eq_refl eq_refl)
                  1 demo_heap eq_refl)
    as (Hev & _ & Hiff).
  split; [exact Hev|].
  apply Hiff. exists 4. split; [reflexivity | vm_compute; discriminate].
Defined.

(** C2 does not hold when the history is complete: the second commit is
    found in the complete log without a next sha, which C2 counts as a
    stale link, yet [show] leaves the next key unbound and git is not
    queried. *)
Lemma next_not_requeried_with_full_history :
  isStash (demo_heap 1) = false /\
  stale_next demo_heap (Some full_log) 1 = true /\
  map dot
    (scopes (events_of (show demo_ext (demo_git None) demo_editor 1 demo_uri
                          None None (Some full_log)) demo_heap))
  = [None] /\
  filter isHistoryQuery
    (events_of (show demo_ext (demo_git None) demo_editor 1 demo_uri
                  None None (Some full_log)) demo_heap)
  = [].
Proof. repeat split. Qed.

End CommitFileDetailsSpec.

(** ** The editor command *)

Module DiffLineWithPreviousSpec.

Import DiffLineWithPrevious.
Local Open Scope list_scope.
Local Open Scope Z_scope.

Ltac step_js :=
  unfold call, start, settle, log, bind, try_catch, ret, throw in *; cbn in *.

Section Facts.

Variable ext : Externals.
Variable host : Host.

(** When the blame has to be asked and the line lies in the blamed range,
    [execute] opens with the blame query and goes on according to its
    answer. *)
Lemma execute_blame (editor : TextEditor) uri commit line u :
  uriOrDocument editor uri = Some u ->
  needsBlame ext commit = true ->
  0 <= lineOrActive editor line - offset (GitUri_fromUri ext u) ->
  forall w,
    execute ext host editor uri commit line w =
    bind (resolveByBlame ext host (GitUri_fromUri ext u)
                         (lineOrActive editor line))
         (fun blamed =>
            match blamed with
            | Return p => settle p
            | Resolved c l => openDiff ext host (GitUri_fromUri ext u) c l
            end) w.
Proof.
  intros Hu Hb Hl w. unfold execute. rewrite Hu.
  destruct commit as [c|]; [rewrite Hb|]; reflexivity.
Qed.

Lemma execute_reaches editor uri commit line g c l pre :
  ReachesDiff ext host editor uri commit line g c l pre ->
  execute ext host editor uri commit line [] = openDiff ext host g c l pre.
Proof.
  intros [u c0 Hu -> Hc | u blame Hu Hb Hl Ha Hn].
  - unfold execute. rewrite Hu. cbn. rewrite Hc. reflexivity.
  - rewrite (execute_blame _ _ _ _ _ Hu Hb Hl).
    unfold resolveByBlame.
    destruct (Z.ltb_spec (lineOrActive editor line - offset (GitUri_fromUri ext u)) 0)
      as [Hlt|_]; [lia|].
    unfold blameAnswer in Ha. step_js. rewrite Ha. cbn.
    unfold afterBlame.
    destruct (blameTarget ext (GitUri_fromUri ext u) blame (lineOrActive editor line))
      as [c1 l1] eqn:Ht.
    cbn in Hn. rewrite Hn. reflexivity.
Qed.

(** C4.  When the commit resolved by the blame is uncommitted, [execute]
    makes no revision-to-revision diff: after the blame query its only call
    is the dispatch of [DiffWithWorking] with the uri of that commit, its
    previous revision and the recomputed line, and the result of [execute]
    is the result of that dispatch. *)
Theorem uncommitted_line_dispatches_DiffWithWorking
    (editor : TextEditor) uri commit line u blame :
  uriOrDocument editor uri = Some u ->
  needsBlame ext commit = true ->
  let gitUri := GitUri_fromUri ext u in
  let l := lineOrActive editor line in
  0 <= l - offset gitUri ->
  blameAnswer host gitUri l = Ok (Some blame) ->
  let resolved := fst (blameTarget ext gitUri blame l) in
  isUncommitted ext resolved = true ->
  let dispatch :=
    DiffWithWorking (CommitUri resolved) (previousRevision ext resolved)
                    (blame_line blame + 1 + offset gitUri) in
  result_of (execute ext host editor uri commit line)
    = executeCommand host dispatch /\
  events_of (execute ext host editor uri commit line)
    = [blameQuery gitUri l; ExecuteCommand dispatch] /\
  dispatched (events_of (execute ext host editor uri commit line))
    = [dispatch].
Proof.
  intros Hu Hb gitUri l Hl Ha resolved Hunc dispatch.
  unfold result_of, events_of.
  rewrite (execute_blame _ _ _ _ _ Hu Hb Hl).
  fold gitUri l. unfold resolveByBlame.
  destruct (Z.ltb_spec (l - offset gitUri) 0) as [Hlt|_]; [lia|].
  unfold blameAnswer in Ha. step_js. rewrite Ha. cbn.
  unfold afterBlame. subst resolved dispatch.
  destruct (blameTarget ext gitUri blame l) as [c1 l1].
  cbn in *. rewrite Hunc. step_js. auto.
Qed.

(** The run of the diff stage, by the answers of the host. *)
Lemma openDiff_run gitUri c l (w : World) :
  let report := [LoggerError logger_prefix "getVersionedFile";
                 ShowErrorMessage unableToOpenDiff_error] in
  let queries := [currentFileQuery gitUri; commitFileQuery ext c] in
  let reveal := RevealLine l "center" in
  openDiff ext host gitUri c l w
  = match currentFileAnswer host gitUri, commitFileAnswer ext host c with
    | Ok v0, Ok v1 =>
        let diff := Diff (Uri_file v1) (Uri_file v0) (diffTitle ext gitUri c) in
        match executeCommand host diff with
        | Ok _ =>
            match executeCommand host reveal with
            | Ok r2 =>
                (Ok r2,
                 w ++ queries ++ [ExecuteCommand diff; ExecuteCommand reveal])
            | Throw =>
                (showErrorMessage host unableToOpenDiff_error,
                 w ++ queries ++ [ExecuteCommand diff; ExecuteCommand reveal]
                 ++ report)
            end
        | Throw =>
            (showErrorMessage host unableToOpenDiff_error,
             w ++ queries ++ [ExecuteCommand diff] ++ report)
        end
    | _, _ =>
        (showErrorMessage host unableToOpenDiff_error, w ++ queries ++ report)
    end.
Proof.
  intros report queries reveal.
  unfold openDiff, currentFileAnswer, commitFileAnswer.
  fold (currentFileQuery gitUri) (commitFileQuery ext c).
  cbv beta iota delta [call start settle log bind try_catch ret].
  subst report queries.
  destruct (getVersionedFile host (fsPath gitUri) (gitUri_repoPath gitUri)
              (gitUri_sha gitUri)) as [v0|];
    destruct (getVersionedFile host (uri_fsPath ext (CommitUri c)) (repoPath c)
                (sha c)) as [v1|];
    try (rewrite <- !app_assoc; reflexivity).
  cbv zeta.
  destruct (executeCommand host (Diff _ _ _));
    [|rewrite <- !app_assoc; reflexivity].
  fold reveal.
  destruct (executeCommand host reveal); rewrite <- !app_assoc; reflexivity.
Qed.

(** C7, as amended.  When the diff stage is reached with a committed
    commit, both file resolutions are started.  When both succeed and the
    dispatch of [Diff] succeeds, the host commands dispatched are exactly
    [Diff] on the two resolved files, the commit's file on the left and the
    current one on the right, and then [RevealLine], centred, for the line
    to reveal, whose result is the result of [execute].  When a resolution
    or a dispatch is rejected, the error is logged and reported, and the
    result is that of the error message.  The line to reveal is the
    selected line (the [line] argument, or else the active line of the
    editor) when the commit was supplied, and when it was found by a blame
    that names another revision than the one the file is shown at; it is
    [blame.line.line + 1 + gitUri.offset] when the blame names the revision
    shown, and the commit compared with is then the previous revision of
    the blamed one. *)
Theorem diff_then_reveal
    (editor : TextEditor) uri commit line gitUri c l pre :
  ReachesDiff ext host editor uri commit line gitUri c l pre ->
  let events := events_of (execute ext host editor uri commit line) in
  let result := result_of (execute ext host editor uri commit line) in
  let queries := [currentFileQuery gitUri; commitFileQuery ext c] in
  let report := [LoggerError logger_prefix "getVersionedFile";
                 ShowErrorMessage unableToOpenDiff_error] in
  let reveal := RevealLine l "center" in
  (forall v0 v1,
     currentFileAnswer host gitUri = Ok v0 ->
     commitFileAnswer ext host c = Ok v1 ->
     let diff := Diff (Uri_file v1) (Uri_file v0) (diffTitle ext gitUri c) in
     (forall r,
        executeCommand host diff = Ok r ->
        dispatched events = [diff; reveal] /\
        (forall r2,
           executeCommand host reveal = Ok r2 ->
           result = Ok r2 /\
           events = pre ++ queries
                    ++ [ExecuteCommand diff; ExecuteCommand reveal]) /\
        (executeCommand host reveal = Throw ->
         result = showErrorMessage host unableToOpenDiff_error /\
         events = pre ++ queries
                  ++ [ExecuteCommand diff; ExecuteCommand reveal] ++ report)) /\
     (executeCommand host diff = Throw ->
      dispatched events = [diff] /\
      result = showErrorMessage host unableToOpenDiff_error /\
      events = pre ++ queries ++ [ExecuteCommand diff] ++ report)) /\
  (currentFileAnswer host gitUri = Throw \/ commitFileAnswer ext host c = Throw ->
   dispatched events = [] /\
   result = showErrorMessage host unableToOpenDiff_error /\
   events = pre ++ queries ++ report) /\
  let selected := lineOrActive editor line in
  ((commit = Some c /\ pre = [] /\ l = selected) \/
   (exists blame,
      needsBlame ext commit = true /\
      pre = [blameQuery gitUri selected] /\
      blameAnswer host gitUri selected = Ok (Some blame) /\
      (same_sha (gitUri_sha gitUri) (sha (blame_commit blame)) = true ->
       c = previousRevision ext (blame_commit blame) /\
       l = blame_line blame + 1 + offset gitUri) /\
      (same_sha (gitUri_sha gitUri) (sha (blame_commit blame)) = false ->
       c = blame_commit blame /\ l = selected))).
Proof.
  intros Hreach events result queries report reveal.
  assert (Hline :
    let selected := lineOrActive editor line in
    (commit = Some c /\ pre = [] /\ l = selected) \/
    (exists blame,
       needsBlame ext commit = true /\
       pre = [blameQuery gitUri selected] /\
       blameAnswer host gitUri selected = Ok (Some blame) /\
       (same_sha (gitUri_sha gitUri) (sha (blame_commit blame)) = true ->
        c = previousRevision ext (blame_commit blame) /\
        l = blame_line blame + 1 + offset gitUri) /\
       (same_sha (gitUri_sha gitUri) (sha (blame_commit blame)) = false ->
        c = blame_commit blame /\ l = selected))).
  { destruct Hreach as [u c0 Hu Hc Hcommitted | u blame Hu Hneeds Hl Hblame Hcommitted].
    - left. auto.
    - right. exists blame. unfold blameTarget.
      destruct (same_sha _ _); cbn [fst snd];
        repeat split; auto; discriminate. }
  assert (Hpre : dispatched pre = []).
  { destruct Hreach; reflexivity. }
  assert (Happ : forall a b, dispatched (a ++ b) = dispatched a ++ dispatched b).
  { induction a as [|[] a IH]; intros; cbn; rewrite ?IH; reflexivity. }
  subst events result.
  unfold events_of, result_of. rewrite (execute_reaches _ _ _ _ _ _ _ _ Hreach).
  rewrite openDiff_run. fold queries report reveal. split; [|split].
  - intros v0 v1 H0 H1. rewrite H0, H1. cbv zeta.
    set (diff := Diff (Uri_file v1) (Uri_file v0) (diffTitle ext gitUri c)).
    split.
    + intros r Hd. rewrite Hd.
      destruct (executeCommand host reveal) as [r2|] eqn:Hr; cbn [fst snd];
        rewrite Happ, Hpre; (split; [reflexivity|]); split;
        solve [ intros ? [= <-]; auto | discriminate | auto ].
    + intros Hd. rewrite Hd. cbn [fst snd]. rewrite Happ, Hpre. auto.
  - intros [Hf|Hf]; rewrite Hf; [|destruct (currentFileAnswer host gitUri)];
      cbn [fst snd]; rewrite Happ, Hpre; auto.
  - exact Hline.
Qed.

(** C8.  Without a supplied committed commit: when the blame line (the line
    minus the offset of the git uri) is negative, [execute] returns
    [undefined] and calls nothing; when it is not and the blame query has
    no result, [execute] shows the warning and dispatches nothing, its
    result being that of the warning. *)
Theorem blame_line_guard (editor : TextEditor) uri commit line u :
  uriOrDocument editor uri = Some u ->
  needsBlame ext commit = true ->
  let gitUri := GitUri_fromUri ext u in
  let l := lineOrActive editor line in
  (l - offset gitUri < 0 ->
     result_of (execute ext host editor uri commit line) = Ok Undefined /\
     events_of (execute ext host editor uri commit line) = []) /\
  (0 <= l - offset gitUri ->
   blameAnswer host gitUri l = Ok None ->
     result_of (execute ext host editor uri commit line)
       = showWarningMessage host unableToOpenDiff_warning /\
     events_of (execute ext host editor uri commit line)
       = [blameQuery gitUri l; ShowWarningMessage unableToOpenDiff_warning] /\
     dispatched (events_of (execute ext host editor uri commit line)) = []).
Proof.
  intros Hu Hb gitUri l. split.
  - intros Hneg. unfold result_of, events_of, execute. rewrite Hu. fold gitUri l.
    assert (Hr : resolveByBlame ext host gitUri l = ret (Return (Ok Undefined))).
    { unfold resolveByBlame.
      destruct (Z.ltb_spec (l - offset gitUri) 0); [reflexivity | lia]. }
    destruct commit as [c|]; [rewrite Hb|]; rewrite Hr; auto.
  - intros Hl Ha. unfold result_of, events_of.
    rewrite (execute_blame _ _ _ _ _ Hu Hb Hl). fold gitUri l.
    unfold resolveByBlame.
    destruct (Z.ltb_spec (l - offset gitUri) 0) as [Hlt|_]; [lia|].
    unfold blameAnswer in Ha. step_js. rewrite Ha. cbn. auto.
Qed.

End Facts.

Import Demo.

(** The line's blame names the uncommitted change: [DiffWithWorking] is
    dispatched for the file at [b2], at line 4 + 1 + 2. *)
Lemma uncommitted_line_dispatches_DiffWithWorking_witness :
  result_of (execute demo_ext
               (demo_host (Some {| blame_commit := working; blame_line := 4 |}))
               demo_editor None None None)
    = Ok (HostValue "diff-with-working") /\
  dispatched
    (events_of (execute demo_ext
                  (demo_host (Some {| blame_commit := working; blame_line := 4 |}))
                  demo_editor None None None))
    = [DiffWithWorking (CommitUri working)
         (demo_new "/repo" (Some "b2") (Some "a.ts") "You" "now"
            "Uncommitted change") 7].
Proof.
  pose proof
    (uncommitted_line_dispatches_DiffWithWorking demo_ext
       (demo_host (Some {| blame_commit := working; blame_line := 4 |}))
       demo_editor None None None (Uri_file "/repo/a.ts")
       {| blame_commit := working; blame_line := 4 |}
       eq_refl eq_refl ltac:(vm_compute; discriminate) eq_refl eq_refl)
    as [Hres [_ Hdis]].
  split; [exact Hres | exact Hdis].
Defined.

Lemma demo_reaches_diff :
  ReachesDiff demo_ext (demo_host None) demo_editor None (Some committed) None
    (GitUri_fromUri demo_ext (Uri_file "/repo/a.ts")) committed 7 [].
Proof.
  exact (reach_supplied demo_ext (demo_host None) demo_editor None
           (Some committed) None (Uri_file "/repo/a.ts") committed
           eq_refl eq_refl eq_refl).
Defined.

(** The file is shown at [b2] and the blame of the selected line names
    [b2]: the diff stage is reached with the previous revision [a1] and
    with line 5 + 1 + 2. *)
Lemma shown_reaches_diff :
  ReachesDiff demo_ext (demo_host (Some Session.shown_blame)) demo_editor
    None None None
    (GitUri_fromUri demo_ext (Uri_file "/repo/a.ts"))
    (previousRevision demo_ext Session.shown_revision) 8
    [GetBlameForLine "/repo/a.ts" 5 (Some "b2") "/repo"].
Proof.
  exact (reach_blamed demo_ext (demo_host (Some Session.shown_blame))
           demo_editor None None None (Uri_file "/repo/a.ts")
           Session.shown_blame
           eq_refl eq_refl ltac:(vm_compute; discriminate) eq_refl eq_refl).
Defined.

(** A committed commit is supplied and every call succeeds: the selected
    line 7 is revealed.  No commit is supplied and the blame names the
    revision shown: line 8 is revealed, and the trace is the blame query,
    the two resolutions and the two dispatches. *)
Lemma diff_then_reveal_witness :
  (dispatched
     (events_of (execute demo_ext (demo_host None) demo_editor None
                   (Some committed) None))
     = [Diff (Uri_file "/tmp/a1") (Uri_file "/tmp/b2") "a.ts (a1) ↔ a.ts (b2)";
        RevealLine 7 "center"] /\
   result_of (execute demo_ext (demo_host None) demo_editor None
                (Some committed) None)
     = Ok (HostValue "revealed")) /\
  (dispatched
     (events_of (execute demo_ext (demo_host (Some Session.shown_blame))
                   demo_editor None None None))
     = [Diff (Uri_file "/tmp/a1") (Uri_file "/tmp/b2") "a.ts (a1) ↔ a.ts (b2)";
        RevealLine 8 "center"] /\
   result_of (execute demo_ext (demo_host (Some Session.shown_blame))
                demo_editor None None None)
     = Ok (HostValue "revealed") /\
   events_of (execute demo_ext (demo_host (Some Session.shown_blame))
                demo_editor None None None)
     = [GetBlameForLine "/repo/a.ts" 5 (Some "b2") "/repo";
        GetVersionedFile "/repo/a.ts" "/repo" (Some "b2");
        GetVersionedFile "/repo/a.ts" "/repo" (Some "a1");
        ExecuteCommand
          (Diff (Uri_file "/tmp/a1") (Uri_file "/tmp/b2") "a.ts (a1) ↔ a.ts (b2)");
        ExecuteCommand (RevealLine 8 "center")]).
Proof.
  split.
  - pose proof
      (proj1 (proj1 (diff_then_reveal demo_ext (demo_host None) demo_editor None
                       (Some committed) None _ _ _ _ demo_reaches_diff)
                    "/tmp/b2" "/tmp/a1" eq_refl eq_refl)
             Undefined eq_refl)
      as [Hdis [Hres _]].
    split; [exact Hdis | exact (proj1 (Hres (HostValue "revealed") eq_refl))].
  - pose proof
      (proj1 (proj1 (diff_then_reveal demo_ext
                       (demo_host (Some Session.shown_blame)) demo_editor None
                       None None _ _ _ _ shown_reaches_diff)
                    "/tmp/b2" "/tmp/a1" eq_refl eq_refl)
             Undefined eq_refl)
      as [Hdis [Hres _]].
    split; [exact Hdis|].
    exact (Hres (HostValue "revealed") eq_refl).
Defined.

(** C7 does not hold as stated, in two ways.  When a call of the diff
    stage is rejected: the stage is reached with a committed commit, the
    file resolutions are rejected, and no host command is dispatched; the
    error is logged and reported instead.  When the blame names the
    revision the file is shown at: the selected line is 7, the stage is
    reached with the previous revision, every call succeeds, and
    [RevealLine] is dispatched for line 8, not for the selected one. *)
Lemma diff_stage_departs_from_two_commands_at_selected_line :
  (ReachesDiff demo_ext failing_host demo_editor None (Some committed) None
     (GitUri_fromUri demo_ext (Uri_file "/repo/a.ts")) committed 7 [] /\
   events_of (execute demo_ext failing_host demo_editor None (Some committed) None)
     = [GetVersionedFile "/repo/a.ts" "/repo" (Some "b2");
        GetVersionedFile "/repo/a.ts" "/repo" (Some "a1");
        LoggerError "[GitLens.DiffWithPreviousLineCommand]" "getVersionedFile";
        ShowErrorMessage "Unable to open diff. See output channel for more details"] /\
   dispatched
     (events_of (execute demo_ext failing_host demo_editor None
                   (Some committed) None))
     = []) /\
  (lineOrActive demo_editor None = 7 /\
   same_sha (gitUri_sha (GitUri_fromUri demo_ext (Uri_file "/repo/a.ts")))
     (sha (blame_commit Session.shown_blame)) = true /\
   ReachesDiff demo_ext (demo_host (Some Session.shown_blame)) demo_editor
     None None None
     (GitUri_fromUri demo_ext (Uri_file "/repo/a.ts"))
     (previousRevision demo_ext Session.shown_revision) 8
     [GetBlameForLine "/repo/a.ts" 5 (Some "b2") "/repo"] /\
   isUncommitted demo_ext (previousRevision demo_ext Session.shown_revision)
     = false /\
   dispatched
     (events_of (execute demo_ext (demo_host (Some Session.shown_blame))
                   demo_editor None None None))
     = [Diff (Uri_file "/tmp/a1") (Uri_file "/tmp/b2") "a.ts (a1) ↔ a.ts (b2)";
        RevealLine 8 "center"] /\
   RevealLine 8 "center"
     <> RevealLine (lineOrActive demo_editor None) "center").
Proof.
  split.
  - split; [|split; reflexivity].
    exact (reach_supplied demo_ext failing_host demo_editor None
             (Some committed) None (Uri_file "/repo/a.ts") committed
             eq_refl eq_refl eq_refl).
  - split; [reflexivity|]. split; [reflexivity|]. split.
    + exact (reach_blamed demo_ext (demo_host (Some Session.shown_blame))
               demo_editor None None None (Uri_file "/repo/a.ts")
               Session.shown_blame
               eq_refl eq_refl ltac:(vm_compute; discriminate) eq_refl eq_refl).
    + split; [reflexivity|]. split; [reflexivity|].
      vm_compute. discriminate.
Qed.

(** Line 1 of a view that starts two lines into the file, and a file that
    has no blame. *)
Lemma blame_line_guard_witness :
  (result_of (execute demo_ext (demo_host None) demo_editor None None (Some 1))
     = Ok Undefined /\
   events_of (execute demo_ext (demo_host None) demo_editor None None (Some 1))
     = []) /\
  (result_of (execute demo_ext (demo_host None) demo_editor None None None)
     = Ok (HostValue "dismissed") /\
   dispatched
     (events_of (execute demo_ext (demo_host None) demo_editor None None None))
     = []).
Proof.
  split.
  - exact (proj1 (blame_line_guard demo_ext (demo_host None) demo_editor None
                    None (Some 1) (Uri_file "/repo/a.ts") eq_refl eq_refl)
                 ltac:(vm_compute; reflexivity)).
  - pose proof
      (proj2 (blame_line_guard demo_ext (demo_host None) demo_editor None
                None None (Uri_file "/repo/a.ts") eq_refl eq_refl)
             ltac:(vm_compute; discriminate) eq_refl)
      as [Hres [_ Hdis]].
    split; [exact Hres | exact Hdis].
Defined.

End DiffLineWithPreviousSpec.

(** * Further properties *)

(** ** The run of the quick pick *)

Module CommitFileDetailsRun.

Import CommitFileDetails CommitFileDetailsSpec.
Local Open Scope list_scope.

Section Facts.

Variable ext : Externals.
Variable git : GitService.
Variable editor : Editor.

(** The remote items, by the answers of the git service. *)
Lemma pushRemoteItems_closed stash commit c cur items w :
  pushRemoteItems git stash commit c cur items w
  = match getRemotes git (repoPath c) with
    | Throw => (Throw, extend w [GetRemotes (repoPath c)])
    | Ok _ =>
        match providedRemotes git c with
        | [] => (Ok items, extend w [GetRemotes (repoPath c)])
        | r :: rest =>
            let revision :=
              MkOpenRemotesCommandQuickPickItem (r :: rest)
                (RevisionResource (fileName c) commit) cur in
            match workingFileIfNotDeleted c with
            | None =>
                (Ok (push_if (negb stash) revision items),
                 extend w [GetRemotes (repoPath c)])
            | Some wf =>
                match getBranch git (branchPath git c) with
                | Ok (Some b) =>
                    (Ok (push_if (negb stash) revision
                           (items ++
                            [MkOpenRemotesCommandQuickPickItem (r :: rest)
                               (FileResource wf (name b)) cur])),
                     extend w [GetRemotes (repoPath c);
                               GetBranch (branchPath git c)])
                | _ =>
                    (Throw,
                     extend w [GetRemotes (repoPath c);
                               GetBranch (branchPath git c)])
                end
            end
        end
    end.
Proof.
  unfold pushRemoteItems, providedRemotes, branchPath, extend.
  cbv beta iota delta [call bind ret throw].
  destruct (getRemotes git (repoPath c)) as [all|]; [|reflexivity].
  destruct (filter (fun r => negb (is_undefined (provider r))) all)
    as [|r rest]; [reflexivity|].
  cbn [length Nat.eqb].
  destruct (workingFileIfNotDeleted c) as [wf|]; [|reflexivity].
  cbn [heap trace].
  destruct (getBranch git _) as [[b|]|]; cbn [heap trace];
    rewrite <- ?app_assoc; reflexivity.
Qed.

(** [show_commit], by the answers of the git service and of the editor. *)
Lemma show_commit_closed stash wn unc commit uri goBack cur fileLog w :
  let c := heap w commit in
  let mapping := mappingOf stash commit c uri goBack fileLog in
  let options :=
    {| matchOnDescription := true;
       placeHolder := placeHolderOf ext unc c;
       ignoreFocusOut := getQuickPickIgnoreFocusOut ext;
       onDidSelectItem := SetRightKeyCommand |} in
  show_commit ext git editor stash wn unc commit uri goBack cur fileLog w
  = match pushRemoteItems git stash commit c cur
            (itemsBeforeRemotes ext stash wn commit c uri cur) w with
    | (Throw, w1) => (Throw, w1)
    | (Ok items1, w1) =>
        let items := itemsAfterRemotes ext stash c goBack cur fileLog items1 in
        match beginScope editor mapping with
        | Throw => (Throw, extend w1 [BeginScope mapping])
        | Ok _ =>
            match showQuickPick editor items options with
            | Throw =>
                (Throw,
                 extend w1 [BeginScope mapping; ShowQuickPick items options])
            | Ok pick =>
                (match dispose editor with
                 | Throw => Throw
                 | Ok _ => Ok pick
                 end,
                 extend w1 [BeginScope mapping; ShowQuickPick items options;
                            ScopeDispose])
            end
        end
    end.
Proof.
  intros c mapping options. unfold show_commit.
  rewrite (EffectsFacts.bind_ok (deref commit) _ w c w) by reflexivity.
  fold c. unfold bind at 1.
  destruct (pushRemoteItems git stash commit c cur _ w) as [[items1|] w1];
    [|reflexivity].
  subst mapping options. unfold mappingOf, extend.
  cbv beta iota delta [call bind ret].
  destruct (beginScope editor _); cbn [heap trace]; [|reflexivity].
  destruct (showQuickPick editor _ _); cbn [heap trace];
    rewrite <- ?app_assoc; [|reflexivity].
  destruct (dispose editor); cbn [heap trace]; rewrite <- ?app_assoc;
    reflexivity.
Qed.

(** [show], down to [show_commit]. *)
Lemma show_closed commit uri goBack cur fileLog h :
  let c := h commit in
  let query := GetLogCommit None (fsPath ext (CommitUri c)) true in
  run (show ext git editor commit uri goBack cur fileLog) h
  = if isUncommitted ext c then
      match getLogCommit git None (fsPath ext (CommitUri c)) true with
      | Throw => (Throw, {| heap := h; trace := [query] |})
      | Ok None => (Ok None, {| heap := h; trace := [query] |})
      | Ok (Some found) =>
          show_commit ext git editor (isStash c) (workingNameOf ext c) true
            found uri goBack cur fileLog {| heap := h; trace := [query] |}
      end
    else
      show_commit ext git editor (isStash c) (workingNameOf ext c) false
        commit uri goBack cur fileLog {| heap := h; trace := [] |}.
Proof.
  intros c query. unfold run, show.
  rewrite (EffectsFacts.bind_ok (deref commit) _ _ c {| heap := h; trace := [] |})
    by reflexivity.
  fold c. destruct (isUncommitted ext c); [|reflexivity].
  unfold bind at 1. unfold call at 1. cbn [heap trace app]. fold query.
  destruct (getLogCommit git None _ true) as [[found|]|]; reflexivity.
Qed.

(** Every run of [show], path by path: the goal is left once for each
    combination of answers, with the trace as a list of calls.  The head
    settles which commit is shown, the tail what happens for it. *)
Ltac show_head h commit :=
  unfold events_of, result_of, heap_after, shownCommit; rewrite show_closed;
  destruct (isUncommitted ext (h commit)) eqn:Hunc;
  [ destruct (getLogCommit git None (fsPath ext (CommitUri (h commit))) true)
      as [[found|]|] eqn:Hlog | ];
  rewrite ?show_commit_closed, ?pushRemoteItems_closed; cbn [heap trace].

Ltac show_tail :=
  try match goal with
      | |- context [getRemotes git (repoPath ?c)] =>
          destruct (getRemotes git (repoPath c)) as [all|] eqn:Hall;
          [ destruct (providedRemotes git c) as [|r rest] eqn:Hprov;
            [ | destruct (workingFileIfNotDeleted c) as [wf|] eqn:Hwf;
                [ destruct (getBranch git (branchPath git c)) as [[b|]|] eqn:Hb
                | ] ]
          | ]
      end;
  cbv zeta;
  try match goal with
      | |- context [beginScope editor ?m] =>
          destruct (beginScope editor m) as [[]|] eqn:Hscope;
          [ match goal with
            | |- context [showQuickPick editor ?i ?o] =>
                destruct (showQuickPick editor i o) as [pick'|] eqn:Hpick;
                [ destruct (dispose editor) as [[]|] eqn:Hdispose | ]
            end
          | ]
      end;
  cbn [fst snd heap trace extend app].

Ltac show_paths h commit := show_head h commit; show_tail.

(** What the source's condition on the working file says. *)
Lemma workingFileIfNotDeleted_some c wf :
  workingFileIfNotDeleted c = Some wf <->
  workingFileName c = Some wf /\ wf <> "" /\ status c <> Some "D".
Proof.
  unfold workingFileIfNotDeleted, deleted, truthy_value.
  destruct (status c) as [st|], (workingFileName c) as [w|];
    try destruct (String.eqb_spec st "D");
    try destruct (String.eqb_spec w ""); subst;
    split; try discriminate; try tauto;
    try (intros [= <-]; repeat split; congruence);
    try (intros ([= <-] & ? & ?); congruence).
Qed.

(** X1.  The calls of [show] come in one order: first those into the git
    service, then [beginScope], with the left key bound to the go-back
    command, then the quick pick, then the disposal of the scope.  A run
    may stop early; it never repeats or reorders these calls. *)
Theorem editor_calls_in_order commit uri goBack cur fileLog h :
  exists service ui,
    events_of (show ext git editor commit uri goBack cur fileLog) h
    = service ++ ui /\
    forallb isServiceCall service = true /\
    (ui = [] \/
     exists mapping,
       left mapping = goBack /\
       (ui = [BeginScope mapping] \/
        exists items options,
          ui = [BeginScope mapping; ShowQuickPick items options] \/
          ui = [BeginScope mapping; ShowQuickPick items options; ScopeDispose])).
Proof.
  match goal with
  | |- exists service ui, ?evs = _ /\ _ =>
      exists (filter isServiceCall evs), (filter isEditorCall evs)
  end.
  show_paths h commit;
    cbn [filter isServiceCall isEditorCall app forallb andb];
    (split; [reflexivity|]); (split; [reflexivity|]);
    first [ left; reflexivity
          | match goal with
            | |- context [BeginScope ?m] =>
                right; exists m; split; [reflexivity|]
            end;
            first [ left; reflexivity
                  | right; eexists; eexists;
                    first [left; reflexivity | right; reflexivity] ] ].
Qed.

(** The go-back item comes first and the history items last. *)
Lemma itemsAfterRemotes_split stash c goBack cur fileLog items :
  itemsAfterRemotes ext stash c goBack cur fileLog items
  = goBackItems goBack ++ items ++ historyItems ext stash c cur fileLog.
Proof.
  unfold historyItems, itemsAfterRemotes, push_if.
  destruct goBack, (truthy_value (workingFileName c)), stash; cbn [negb goBackItems app];
    rewrite <- ?app_assoc, ?app_nil_r; reflexivity.
Qed.

(** Every picker that [show] opens, item by item: the go-back item, the
    items of lines 61-125, the remote items and the history items. *)
Lemma show_picker commit uri goBack cur fileLog h items options :
  In (ShowQuickPick items options)
     (events_of (show ext git editor commit uri goBack cur fileLog) h) ->
  exists shown,
    shownCommit ext git h commit = Some shown /\
    items = goBackItems goBack
            ++ itemsBeforeRemotes ext (isStash (h commit))
                 (workingNameOf ext (h commit)) shown (h shown) uri cur
            ++ remoteItemsOf git (isStash (h commit)) shown (h shown) cur
            ++ historyItems ext (isStash (h commit)) (h shown) cur fileLog.
Proof.
  show_paths h commit; intros Hin; cbn [In] in Hin;
    repeat match goal with
           | H : _ \/ _ |- _ => destruct H as [H|H]
           end;
    try contradiction; try discriminate Hin;
    injection Hin as <- _;
    eexists; (split; [reflexivity|]);
    rewrite itemsAfterRemotes_split; unfold remoteItemsOf;
    fold (branchPath git (h commit)); try fold (branchPath git (h found));
    rewrite Hprov, ?Hwf, ?Hb; unfold push_if;
    destruct (isStash (h commit)); cbn [negb app];
    rewrite <- ?app_assoc, ?app_nil_r; reflexivity.
Qed.

(** X2.  When [show] returns, either an uncommitted file has no last
    commit and nothing was shown, the result being [undefined], or the key
    scope was begun, the picker opened and the scope disposed, all three
    accepted by the editor, and the result is what the picker answered. *)
Theorem show_returns_the_pick commit uri goBack cur fileLog h pick :
  result_of (show ext git editor commit uri goBack cur fileLog) h = Ok pick ->
  (pick = None /\
   isUncommitted ext (h commit) = true /\
   getLogCommit git None (fsPath ext (CommitUri (h commit))) true = Ok None /\
   events_of (show ext git editor commit uri goBack cur fileLog) h
   = [GetLogCommit None (fsPath ext (CommitUri (h commit))) true]) \/
  (exists service mapping items options,
     events_of (show ext git editor commit uri goBack cur fileLog) h
     = service ++ [BeginScope mapping; ShowQuickPick items options; ScopeDispose] /\
     forallb isServiceCall service = true /\
     beginScope editor mapping = Ok tt /\
     showQuickPick editor items options = Ok pick /\
     dispose editor = Ok tt).
Proof.
  show_paths h commit; intros Hres; try discriminate Hres;
    injection Hres as <-;
    first [ left; repeat split; reflexivity
          | right;
            match goal with
            | |- context [?pre ++ [BeginScope ?m; ShowQuickPick ?i ?o; ScopeDispose]] =>
                idtac
            | |- exists service mapping items options,
                   ?evs = _ /\ _ =>
                exists (filter isServiceCall evs)
            end;
            match goal with
            | Hs : beginScope editor ?m = Ok tt,
              Hp : showQuickPick editor ?i ?o = Ok _ |- _ =>
                exists m, i, o
            end;
            cbn [filter isServiceCall app forallb andb]; auto ].
Qed.

(** X3.  There is no clean-up on rejection.  When the editor refuses the
    key scope, [show] is rejected and neither opens a picker nor disposes
    anything; when the quick pick is rejected, [show] is rejected and the
    scope it began is never disposed. *)
Theorem rejected_editor_calls commit uri goBack cur fileLog h :
  (forall mapping,
     In (BeginScope mapping)
        (events_of (show ext git editor commit uri goBack cur fileLog) h) ->
     beginScope editor mapping = Throw ->
     result_of (show ext git editor commit uri goBack cur fileLog) h = Throw /\
     forall e,
       In e (events_of (show ext git editor commit uri goBack cur fileLog) h) ->
       isEditorCall e = true -> e = BeginScope mapping) /\
  (forall items options,
     In (ShowQuickPick items options)
        (events_of (show ext git editor commit uri goBack cur fileLog) h) ->
     showQuickPick editor items options = Throw ->
     result_of (show ext git editor commit uri goBack cur fileLog) h = Throw /\
     ~ In ScopeDispose
         (events_of (show ext git editor commit uri goBack cur fileLog) h)).
Proof.
  show_paths h commit;
    (split; [intros mapping Hin Hrej | intros items options Hin Hrej]);
    cbn [In] in Hin;
    repeat match goal with
           | H : _ \/ _ |- _ => destruct H as [H|H]
           end;
    try contradiction; try discriminate Hin;
    injection Hin as <-; try subst options;
    try congruence;
    (split; [reflexivity|]);
    cbn [In]; unfold not; intros;
    repeat match goal with
           | H : _ \/ _ |- _ => destruct H as [H|H]
           | H : False |- _ => contradiction
           end;
    subst; try discriminate; try reflexivity.
Qed.

(** X4.  [show] itself writes to no commit object: the heap after a run
    is the heap before it. *)
Theorem show_writes_nothing commit uri goBack cur fileLog h :
  forall l,
    heap_after (show ext git editor commit uri goBack cur fileLog) h l = h l.
Proof.
  intros l. show_paths h commit; reflexivity.
Qed.

Lemma revision_item_isOpenRevision c :
  isOpenRevision (OpenCommitFileRevisionCommandQuickPickItem ext c None) = true /\
  isOpenFile (OpenCommitFileRevisionCommandQuickPickItem ext c None) = false /\
  isRemotesItem (OpenCommitFileRevisionCommandQuickPickItem ext c None) = false.
Proof.
  unfold OpenCommitFileRevisionCommandQuickPickItem.
  destruct (deleted c); repeat split.
Qed.

(** The open-file, open-revision and remote items among those of lines
    61-125. *)
Lemma itemsBeforeRemotes_filters stash wn commit c uri cur :
  filter isOpenRevision (itemsBeforeRemotes ext stash wn commit c uri cur)
  = [OpenCommitFileRevisionCommandQuickPickItem ext c None] /\
  filter isOpenFile (itemsBeforeRemotes ext stash wn commit c uri cur)
  = match workingFileIfNotDeleted c with
    | Some _ => [OpenCommitFileCommandQuickPickItem ext c None]
    | None => []
    end /\
  filter isRemotesItem (itemsBeforeRemotes ext stash wn commit c uri cur) = [].
Proof.
  destruct (revision_item_isOpenRevision c) as (Hr & Hf & Hm).
  unfold itemsBeforeRemotes, push_if.
  destruct stash; cbn [negb];
    destruct (truthy (previousSha c));
    destruct (truthy_value (workingFileName c));
    destruct (workingFileIfNotDeleted c);
    repeat (rewrite filter_app; cbn [filter app]);
    cbn [isOpenRevision isOpenFile isRemotesItem showCommitDetailsItem
         compareWithPreviousItem compareWithWorkingItem copyShaItem
         copyMessageItem OpenCommitFileCommandQuickPickItem filter app];
    rewrite Hr, Hf, Hm; repeat split.
Qed.

Lemma historyItems_filters stash c cur fileLog :
  filter isOpenRevision (historyItems ext stash c cur fileLog) = [] /\
  filter isOpenFile (historyItems ext stash c cur fileLog) = [] /\
  filter isRemotesItem (historyItems ext stash c cur fileLog) = [].
Proof.
  unfold historyItems, itemsAfterRemotes, push_if.
  destruct stash, (truthy_value (workingFileName c)); repeat split.
Qed.

Lemma remoteItemsOf_filters stash commit c cur :
  filter isOpenRevision (remoteItemsOf git stash commit c cur) = [] /\
  filter isOpenFile (remoteItemsOf git stash commit c cur) = [] /\
  filter isRemotesItem (remoteItemsOf git stash commit c cur)
  = remoteItemsOf git stash commit c cur.
Proof.
  unfold remoteItemsOf.
  destruct (providedRemotes git c); [repeat split|].
  destruct (workingFileIfNotDeleted c); [destruct (getBranch git _) as [[b|]|]|];
    destruct stash; repeat split.
Qed.

(** X5.  Every picker that [show] opens is the go-back item, if any, and a
    body that offers Open Revision exactly once, for the commit shown, and
    Open File exactly when that commit has a working file and did not
    delete it. *)
Theorem file_items_of_picker commit uri goBack cur fileLog h items options :
  In (ShowQuickPick items options)
     (events_of (show ext git editor commit uri goBack cur fileLog) h) ->
  exists shown body,
    shownCommit ext git h commit = Some shown /\
    items = goBackItems goBack ++ body /\
    filter isOpenRevision body
    = [OpenCommitFileRevisionCommandQuickPickItem ext (h shown) None] /\
    filter isOpenFile body
    = match workingFileIfNotDeleted (h shown) with
      | Some _ => [OpenCommitFileCommandQuickPickItem ext (h shown) None]
      | None => []
      end.
Proof.
  intros Hin. apply show_picker in Hin. destruct Hin as (shown & Hshown & ->).
  exists shown. eexists. split; [exact Hshown|]. split; [reflexivity|].
  destruct (itemsBeforeRemotes_filters (isStash (h commit))
              (workingNameOf ext (h commit)) shown (h shown) uri cur)
    as (Hr1 & Hf1 & _).
  destruct (remoteItemsOf_filters (isStash (h commit)) shown (h shown) cur)
    as (Hr2 & Hf2 & _).
  destruct (historyItems_filters (isStash (h commit)) (h shown) cur fileLog)
    as (Hr3 & Hf3 & _).
  rewrite !filter_app, Hr1, Hr2, Hr3, Hf1, Hf2, Hf3, !app_nil_r.
  split; reflexivity.
Qed.

Lemma branchPath_eq c :
  branchPath git c
  = if String.eqb (repoPath c) "" then git_repoPath git else repoPath c.
Proof.
  unfold branchPath, or_else, truthy, interpolate.
  destruct (String.eqb (repoPath c) ""); reflexivity.
Qed.

(** X6.  [show] asks for the branch only when it is needed for the
    file-remote item: the commit shown has a remote with a provider and a
    working file that it did not delete.  The repository asked is that of
    the commit or, when that is empty, that of the git service. *)
Theorem getBranch_only_when_needed commit uri goBack cur fileLog h path :
  In (GetBranch path)
     (events_of (show ext git editor commit uri goBack cur fileLog) h) ->
  exists shown wf,
    shownCommit ext git h commit = Some shown /\
    providedRemotes git (h shown) <> [] /\
    workingFileName (h shown) = Some wf /\ wf <> "" /\
    status (h shown) <> Some "D" /\
    path = if String.eqb (repoPath (h shown)) ""
           then git_repoPath git else repoPath (h shown).
Proof.
  show_paths h commit; intros Hin; cbn [In] in Hin;
    repeat match goal with
           | H : _ \/ _ |- _ => destruct H as [H|H]
           end;
    try contradiction; try discriminate Hin;
    injection Hin as <-;
    apply workingFileIfNotDeleted_some in Hwf; destruct Hwf as (Hw & Hne & Hst);
    eexists; exists wf; rewrite <- branchPath_eq;
    repeat split; try eassumption; congruence.
Qed.

(** X7.  A picker never offers a remote without a provider: every remote
    item of its body lists exactly the remotes that have one, of which
    there is at least one, and goes back to the current command.  The file
    item names the working file and the branch the git service answered;
    the revision item, which only a commit other than a stash has, names
    the commit shown. *)
Theorem remote_items_of_picker commit uri goBack cur fileLog h items options :
  In (ShowQuickPick items options)
     (events_of (show ext git editor commit uri goBack cur fileLog) h) ->
  exists shown body,
    shownCommit ext git h commit = Some shown /\
    items = goBackItems goBack ++ body /\
    forall item,
      In item body -> isRemotesItem item = true ->
      exists resource,
        item = MkOpenRemotesCommandQuickPickItem
                 (providedRemotes git (h shown)) resource cur /\
        providedRemotes git (h shown) <> [] /\
        (forall r, In r (providedRemotes git (h shown)) -> provider r <> None) /\
        match resource with
        | FileResource wf branch =>
            workingFileName (h shown) = Some wf /\
            status (h shown) <> Some "D" /\
            exists b,
              getBranch git (branchPath git (h shown)) = Ok (Some b) /\
              branch = name b
        | RevisionResource file object =>
            isStash (h commit) = false /\
            file = fileName (h shown) /\ object = shown
        end.
Proof.
  intros Hin. apply show_picker in Hin. destruct Hin as (shown & Hshown & ->).
  exists shown. eexists. split; [exact Hshown|]. split; [reflexivity|].
  intros item Hitem Hremote.
  assert (Hprovider :
            forall r, In r (providedRemotes git (h shown)) -> provider r <> None).
  { unfold providedRemotes. destruct (getRemotes git _); [|contradiction].
    intros r Hr. apply filter_In in Hr as [_ Hr].
    destruct (provider r); [discriminate | discriminate Hr]. }
  assert (Hno : forall l, filter isRemotesItem l = [] -> ~ In item l).
  { intros l Hl Hi.
    assert (Hf : In item (filter isRemotesItem l))
      by (apply filter_In; split; assumption).
    rewrite Hl in Hf. contradiction. }
  apply in_app_or in Hitem as [Hitem|Hitem].
  { exfalso. revert Hitem. apply Hno.
    apply (itemsBeforeRemotes_filters (isStash (h commit))
             (workingNameOf ext (h commit)) shown (h shown) uri cur). }
  apply in_app_or in Hitem as [Hitem|Hitem].
  2:{ exfalso. revert Hitem. apply Hno.
      apply (historyItems_filters (isStash (h commit)) (h shown) cur fileLog). }
  unfold remoteItemsOf in Hitem. fold (branchPath git (h shown)) in Hitem.
  destruct (providedRemotes git (h shown)) as [|r rest] eqn:Hprov;
    [contradiction|].
  apply in_app_or in Hitem as [Hitem|Hitem].
  - destruct (workingFileIfNotDeleted (h shown)) as [wf|] eqn:Hwf;
      [|contradiction].
    destruct (getBranch git (branchPath git (h shown))) as [[b|]|] eqn:Hb;
      try contradiction.
    destruct Hitem as [<-|[]].
    apply workingFileIfNotDeleted_some in Hwf. destruct Hwf as (Hw & _ & Hst).
    eexists. split; [reflexivity|]. split; [discriminate|].
    split; [exact Hprovider|]. eauto.
  - destruct (isStash (h commit)); [contradiction|].
    destruct Hitem as [<-|[]].
    eexists. split; [reflexivity|]. split; [discriminate|].
    split; [exact Hprovider|]. auto.
Qed.

(** X8.  The file-remote item cannot be built without a branch: when the
    commit shown has a remote with a provider and a working file that it
    did not delete, and the git service knows no branch, [show] is rejected
    after the two git calls and makes no call into the editor. *)
Theorem missing_branch_rejects commit uri goBack cur fileLog h shown file :
  shownCommit ext git h commit = Some shown ->
  providedRemotes git (h shown) <> [] ->
  workingFileName (h shown) = Some file ->
  file <> "" ->
  status (h shown) <> Some "D" ->
  getBranch git (branchPath git (h shown)) = Ok None ->
  result_of (show ext git editor commit uri goBack cur fileLog) h = Throw /\
  forall e,
    In e (events_of (show ext git editor commit uri goBack cur fileLog) h) ->
    isServiceCall e = true.
Proof.
  intros Hshown Hp Hw Hne Hst Hbranch.
  assert (Hwf0 : workingFileIfNotDeleted (h shown) = Some file)
    by (apply workingFileIfNotDeleted_some; auto).
  revert Hshown. show_head h commit; intros Hshown;
    try discriminate Hshown; injection Hshown as ->;
    show_tail; try congruence;
    (split; [reflexivity|]); cbn [In]; intros e He;
    repeat match goal with
           | H : _ \/ _ |- _ => destruct H as [H|H]
           | H : False |- _ => contradiction
           end;
    subst; reflexivity.
Qed.

(** X9.  With a fresh cached link, which means that the file log holds
    the commit and that entry has a previous sha, the previous-key closure
    calls nothing and writes nothing: its command opens the previous
    revision of the log's entry and carries the log along. *)
Theorem previous_uses_cached_link shown uri goBack fileLog h' :
  stale_previous h' fileLog shown = false ->
  exists log c p,
    fileLog = Some log /\
    commits_get (commits log) (sha (h' shown)) = Some c /\
    previousSha (h' c) = Some p /\
    run (invoke ext git (PreviousCommandFn shown uri goBack fileLog)) h'
    = (Ok (KeyItem (showCommitFileDetailsKey (CommitPreviousUri (h' c))
                      (Some log) p goBack)),
       {| heap := h'; trace := [] |}).
Proof.
  unfold stale_previous. intros Hfresh.
  destruct fileLog as [log|]; [|discriminate].
  destruct (commits_get (commits log) (sha (h' shown))) as [c|] eqn:Hc;
    [|discriminate].
  destruct (previousSha (h' c)) as [p|] eqn:Hp; [|discriminate].
  exists log, c, p.
  split; [reflexivity|]. split; [exact Hc|]. split; [exact Hp|].
  assert (Hun : previous_unavailable (Some c) {| heap := h'; trace := [] |}
                = (Ok false, {| heap := h'; trace := [] |})).
  { unfold previous_unavailable, bind, deref, ret. cbn [heap].
    rewrite Hp. reflexivity. }
  unfold run, invoke, previousCommand_async, lookup_commit.
  rewrite (EffectsFacts.bind_ok (deref shown) _ _ (h' shown)
             {| heap := h'; trace := [] |}) by reflexivity.
  rewrite Hc, (EffectsFacts.bind_ok _ _ _ _ _ Hun).
  unfold previousCommand_result, bind, deref, ret. cbn [heap].
  rewrite Hp. reflexivity.
Qed.

(** The run of the [nextCommand] closure on a link that the log knows. *)
Lemma nextCommand_async_fresh shown uri goBack log h' c n :
  commits_get (commits log) (sha (h' shown)) = Some c ->
  nextSha (h' c) = Some n ->
  nextCommand_async ext git shown uri goBack (Some log)
    {| heap := h'; trace := [] |}
  = (Ok (KeyItem (showCommitFileDetailsKey (CommitNextUri (h' c))
                    (Some log) n goBack)),
     {| heap := h'; trace := [] |}).
Proof.
  intros Hc Hn.
  assert (Hun : next_unavailable (Some c) {| heap := h'; trace := [] |}
                = (Ok false, {| heap := h'; trace := [] |})).
  { unfold next_unavailable, bind, deref, ret. cbn [heap].
    rewrite Hn. reflexivity. }
  unfold nextCommand_async, lookup_commit.
  rewrite (EffectsFacts.bind_ok (deref shown) _ _ (h' shown)
             {| heap := h'; trace := [] |}) by reflexivity.
  rewrite Hc, (EffectsFacts.bind_ok _ _ _ _ _ Hun).
  unfold nextCommand_result, bind, deref, ret. cbn [heap].
  rewrite Hn. reflexivity.
Qed.

(** X10.  Likewise the next-key closure, when the file log holds the
    commit and that entry has a next sha: no call, no write, and a command
    for the next revision of the log's entry, with the log. *)
Theorem next_uses_cached_link shown uri goBack fileLog h' :
  stale_next h' fileLog shown = false ->
  exists log c n,
    fileLog = Some log /\
    commits_get (commits log) (sha (h' shown)) = Some c /\
    nextSha (h' c) = Some n /\
    run (invoke ext git (NextCommandFn shown uri goBack fileLog)) h'
    = (Ok (KeyItem (showCommitFileDetailsKey (CommitNextUri (h' c))
                      (Some log) n goBack)),
       {| heap := h'; trace := [] |}).
Proof.
  unfold stale_next. intros Hfresh.
  destruct fileLog as [log|]; [|discriminate].
  destruct (commits_get (commits log) (sha (h' shown))) as [c|] eqn:Hc;
    [|discriminate].
  destruct (nextSha (h' c)) as [n|] eqn:Hn; [|discriminate].
  exists log, c, n.
  split; [reflexivity|]. split; [exact Hc|]. split; [exact Hn|].
  unfold run, invoke. apply nextCommand_async_fresh; assumption.
Qed.

(** X11.  What the previous-key closure writes when it re-queries: the
    commit it finds in the fresh log gets the next sha and next file name
    of the current commit, and nothing else changes; when it finds none,
    the heap is as before. *)
Theorem previous_copies_next_link shown uri goBack fileLog h' :
  stale_previous h' fileLog shown = true ->
  let cm := h' shown in
  let answer := getLogForFile git (repoPath cm) (fsPath ext uri) (sha cm)
                  (maxQuickHistory git) in
  let after :=
    heap_after (invoke ext git (PreviousCommandFn shown uri goBack fileLog)) h' in
  (forall log c,
     answer = Ok (Some log) ->
     refetchedCommit ext log cm = Some c ->
     after c = set_next (nextSha cm) (nextFileName cm) (h' c) /\
     previousSha (after c) = previousSha (h' c) /\
     sha (after c) = sha (h' c) /\
     forall l, l <> c -> after l = h' l) /\
  ((answer = Throw \/ answer = Ok None \/
    exists log, answer = Ok (Some log) /\ refetchedCommit ext log cm = None) ->
   forall l, after l = h' l).
Proof.
  intros Hstale cm answer after. subst after.
  unfold heap_after, run, invoke.
  rewrite (previousCommand_async_stale _ _ _ _ _ _ _ _ Hstale).
  fold cm answer. split.
  - intros log c -> Hc. rewrite Hc. cbn [snd heap].
    rewrite Nat.eqb_refl. repeat split.
    intros l Hl. apply Nat.eqb_neq in Hl. rewrite Hl. reflexivity.
  - intros [-> | [-> | (log & -> & ->)]]; reflexivity.
Qed.

(** The heap after the [nextCommand] closure ran on a stale link. *)
Lemma nextCommand_async_heap shown uri goBack fileLog h' t l :
  stale_next h' fileLog shown = true ->
  let cm := h' shown in
  heap (snd (nextCommand_async ext git shown uri goBack fileLog
               {| heap := h'; trace := t |})) l
  = match findNextCommit git (repoPath cm) (fsPath ext uri) (sha cm) with
    | Ok (Some next) =>
        if String.eqb (sha (h' next)) (sha cm) then h' l
        else if Nat.eqb l shown
             then set_next (Some (sha (h' next)))
                    (Some (or_else (originalFileName (h' next))
                             (fileName (h' next))))
                    cm
             else h' l
    | _ => h' l
    end.
Proof.
  intros Hstale cm.
  assert (Hun : next_unavailable (lookup_commit fileLog (sha cm))
                  {| heap := h'; trace := t |}
                = (Ok true, {| heap := h'; trace := t |})).
  { unfold stale_next in Hstale. fold cm in Hstale.
    unfold lookup_commit, next_unavailable.
    destruct fileLog as [log|]; [|reflexivity].
    destruct (commits_get (commits log) (sha cm)) as [c|]; [|reflexivity].
    unfold bind, deref, ret. cbn [heap]. rewrite Hstale. reflexivity. }
  unfold nextCommand_async.
  rewrite (EffectsFacts.bind_ok (deref shown) _ _ cm {| heap := h'; trace := t |})
    by reflexivity.
  rewrite (EffectsFacts.bind_ok _ _ _ _ _ Hun).
  unfold bind at 1. unfold call at 1. cbn [heap trace].
  destruct (findNextCommit git _ _ _) as [[next|]|]; try reflexivity.
  unfold bind at 1. unfold bind at 1. unfold deref at 1.
  cbn [heap]. unfold bind at 1. unfold deref at 1. cbn [heap]. fold cm.
  destruct (String.eqb_spec (sha (h' next)) (sha cm)) as [Heq|Hne];
    cbn [negb]; [reflexivity|].
  assert (Hloc : Nat.eqb next shown = false).
  { apply Nat.eqb_neq. intros ->. apply Hne. reflexivity. }
  unfold nextCommand_result, update, bind, deref, ret. cbn [heap trace].
  rewrite Nat.eqb_refl, Hloc. cbn [nextSha set_next fst snd heap].
  fold cm. destruct (Nat.eqb l shown) eqn:Hl; [|reflexivity].
  apply Nat.eqb_eq in Hl. subst l. reflexivity.
Qed.

(** X12.  What the next-key closure writes when it re-queries: when git
    finds a next commit with another sha, the current commit gets that sha
    as its next sha and that commit's original file name, or else its file
    name, as its next file name, and nothing else changes; in every other
    case the heap is as before. *)
Theorem next_records_found_commit shown uri goBack fileLog h' :
  stale_next h' fileLog shown = true ->
  let cm := h' shown in
  let answer := findNextCommit git (repoPath cm) (fsPath ext uri) (sha cm) in
  let after :=
    heap_after (invoke ext git (NextCommandFn shown uri goBack fileLog)) h' in
  (forall next,
     answer = Ok (Some next) ->
     sha (h' next) <> sha cm ->
     after shown
     = set_next (Some (sha (h' next)))
         (Some (if truthy (originalFileName (h' next))
                then interpolate (originalFileName (h' next))
                else fileName (h' next)))
         cm /\
     forall l, l <> shown -> after l = h' l) /\
  ((answer = Throw \/ answer = Ok None \/
    exists next, answer = Ok (Some next) /\ sha (h' next) = sha cm) ->
   forall l, after l = h' l).
Proof.
  intros Hstale cm answer after. subst after.
  unfold heap_after, run, invoke. split.
  - intros next Ha Hne. split; [|intros l Hl];
      rewrite (nextCommand_async_heap _ _ _ _ _ _ _ Hstale);
      fold cm answer; rewrite Ha;
      (destruct (String.eqb_spec (sha (h' next)) (sha cm)); [contradiction|]).
    + rewrite Nat.eqb_refl. reflexivity.
    + apply Nat.eqb_neq in Hl. rewrite Hl. reflexivity.
  - intros Hcase l. rewrite (nextCommand_async_heap _ _ _ _ _ _ _ Hstale).
    fold cm answer.
    destruct Hcase as [-> | [-> | (next & -> & Heq)]]; try reflexivity.
    rewrite Heq, String.eqb_refl. reflexivity.
Qed.

(** X13.  The write of the next-key closure serves as a cache when the
    file log holds the commit object itself: after one call that found the
    next commit, a second call asks git nothing and answers the command for
    the same sha, this time carrying the file log. *)
Theorem next_link_is_cached shown uri goBack log h' next :
  commits_get (commits log) (sha (h' shown)) = Some shown ->
  nextSha (h' shown) = None ->
  findNextCommit git (repoPath (h' shown)) (fsPath ext uri) (sha (h' shown))
  = Ok (Some next) ->
  sha (h' next) <> sha (h' shown) ->
  let closure := invoke ext git (NextCommandFn shown uri goBack (Some log)) in
  let cached := heap_after closure h' in
  events_of closure h'
  = [FindNextCommit (repoPath (h' shown)) (fsPath ext uri) (sha (h' shown))] /\
  events_of closure cached = [] /\
  result_of closure cached
  = Ok (KeyItem (showCommitFileDetailsKey (CommitNextUri (cached shown))
                   (Some log) (sha (h' next)) goBack)).
Proof.
  intros Hown Hnone Hfound Hne closure cached.
  assert (Hstale : stale_next h' (Some log) shown = true).
  { unfold stale_next. rewrite Hown, Hnone. reflexivity. }
  assert (Hshown :
            cached shown
            = set_next (Some (sha (h' next)))
                (Some (or_else (originalFileName (h' next)) (fileName (h' next))))
                (h' shown)).
  { subst cached closure. unfold heap_after, run, invoke.
    rewrite (nextCommand_async_heap _ _ _ _ _ _ _ Hstale), Hfound.
    destruct (String.eqb_spec (sha (h' next)) (sha (h' shown)));
      [contradiction|].
    rewrite Nat.eqb_refl. reflexivity. }
  split.
  - destruct (nextCommand_async_stale ext git shown uri goBack (Some log) h' []
                Hstale) as [heap' Hrun].
    subst closure. unfold events_of, run, invoke. rewrite Hrun. reflexivity.
  - assert (Hrun :
      nextCommand_async ext git shown uri goBack (Some log)
        {| heap := cached; trace := [] |}
      = (Ok (KeyItem (showCommitFileDetailsKey (CommitNextUri (cached shown))
                        (Some log) (sha (h' next)) goBack)),
         {| heap := cached; trace := [] |})).
    { apply nextCommand_async_fresh.
      - rewrite Hshown. cbn [sha set_next]. exact Hown.
      - rewrite Hshown. reflexivity. }
    subst closure. unfold events_of, result_of, run, invoke.
    rewrite Hrun. split; reflexivity.
Qed.

(** X20.  The comparison with the working tree and the history of the
    working file are offered exactly when the commit shown has a working
    file name, also when it deleted the file.  Both open the working file
    of the commit shown; the comparison is described by the working name of
    the commit [show] was called with. *)
Theorem working_file_items_of_picker commit uri goBack cur fileLog h items
    options :
  In (ShowQuickPick items options)
     (events_of (show ext git editor commit uri goBack cur fileLog) h) ->
  exists shown body,
    shownCommit ext git h commit = Some shown /\
    items = goBackItems goBack ++ body /\
    filter isCompareWithWorking body
    = match truthy_value (workingFileName (h shown)) with
      | Some w =>
          [compareWithWorkingItem ext shown (h shown) w
             (workingNameOf ext (h commit))]
      | None => []
      end /\
    filter isFileHistory body
    = match truthy_value (workingFileName (h shown)) with
      | Some w => [fileHistoryItem ext (h shown) w fileLog cur]
      | None => []
      end.
Proof.
  intros Hin. apply show_picker in Hin. destruct Hin as (shown & Hshown & ->).
  exists shown. eexists. split; [exact Hshown|]. split; [reflexivity|].
  assert (Hrev : forall c,
            isCompareWithWorking
              (OpenCommitFileRevisionCommandQuickPickItem ext c None) = false /\
            isFileHistory
              (OpenCommitFileRevisionCommandQuickPickItem ext c None) = false).
  { intros c. unfold OpenCommitFileRevisionCommandQuickPickItem.
    destruct (deleted c); split; reflexivity. }
  destruct (Hrev (h shown)) as [Hr1 Hr2].
  rewrite !filter_app.
  unfold itemsBeforeRemotes, remoteItemsOf, historyItems, itemsAfterRemotes,
    push_if.
  destruct (isStash (h commit)); cbn [negb];
    destruct (truthy (previousSha (h shown)));
    destruct (truthy_value (workingFileName (h shown)));
    destruct (workingFileIfNotDeleted (h shown));
    destruct (providedRemotes git (h shown));
    try destruct (getBranch git _) as [[b|]|];
    repeat (rewrite filter_app; cbn [filter app]);
    cbn [isCompareWithWorking isFileHistory showCommitDetailsItem
         compareWithPreviousItem compareWithWorkingItem copyShaItem
         copyMessageItem OpenCommitFileCommandQuickPickItem fileHistoryItem
         fileHistoryFromCommitItem filter app];
    rewrite ?Hr1, ?Hr2; split; reflexivity.
Qed.

End Facts.

Import Demo Session.

(** The picker of a stash offers the comparison with the working file. *)
Lemma working_file_items_of_picker_witness :
  exists items options,
    In (ShowQuickPick items options)
       (events_of (show demo_ext (demo_git None) demo_editor 2 demo_uri None
                     None None) demo_heap) /\
    filter isCompareWithWorking items
    = [compareWithWorkingItem demo_ext 2 (demo_heap 2) "a.ts" "a.ts"].
Proof.
  assert (H : exists items options,
             In (ShowQuickPick items options)
                (events_of (show demo_ext (demo_git None) demo_editor 2
                              demo_uri None None None) demo_heap)).
  { eexists; eexists. vm_compute. do 3 right. left. reflexivity. }
  destruct H as (items & options & Hin).
  exists items, options. split; [exact Hin|].
  destruct (working_file_items_of_picker demo_ext (demo_git None) demo_editor 2
              demo_uri None None None demo_heap items options Hin)
    as (shown & body & Hshown & Hitems & Hcompare & _).
  injection Hshown as <-. cbn [goBackItems app] in Hitems. subst body.
  exact Hcompare.
Defined.

(** The second commit, opened from a history picker: the pick is the first
    item, which is the go-back item. *)
Lemma show_returns_the_pick_witness :
  result_of (show demo_ext (demo_git None) demo_editor 1 demo_uri (Some back)
               None (Some full_log)) demo_heap
  = Ok (Some back) /\
  exists service mapping items options,
    events_of (show demo_ext (demo_git None) demo_editor 1 demo_uri (Some back)
                 None (Some full_log)) demo_heap
    = service ++ [BeginScope mapping; ShowQuickPick items options; ScopeDispose] /\
    showQuickPick demo_editor items options = Ok (Some back).
Proof.
  split; [reflexivity|].
  destruct (show_returns_the_pick demo_ext (demo_git None) demo_editor 1
              demo_uri (Some back) None (Some full_log) demo_heap (Some back)
              eq_refl)
    as [(Hnone & _) | (service & mapping & items & options & Hev & _ & _ & Hpick & _)].
  - discriminate Hnone.
  - exists service, mapping, items, options. split; [exact Hev | exact Hpick].
Defined.

(** A picker that is closed by a rejection, and an editor that refuses
    the key scope. *)
Lemma rejected_editor_calls_witness :
  (result_of (show demo_ext (demo_git None) closing_editor 1 demo_uri None
                None None) demo_heap = Throw /\
   ~ In ScopeDispose
       (events_of (show demo_ext (demo_git None) closing_editor 1 demo_uri None
                     None None) demo_heap)) /\
  result_of (show demo_ext (demo_git None) busy_editor 1 demo_uri None
               None None) demo_heap = Throw.
Proof.
  split.
  - assert (H : exists items options,
               In (ShowQuickPick items options)
                  (events_of (show demo_ext (demo_git None) closing_editor 1
                                demo_uri None None None) demo_heap)).
    { eexists; eexists. vm_compute. do 3 right. left. reflexivity. }
    destruct H as (items & options & Hin).
    exact (proj2 (rejected_editor_calls demo_ext (demo_git None) closing_editor
                    1 demo_uri None None None demo_heap)
                 items options Hin eq_refl).
  - assert (H : exists mapping,
               In (BeginScope mapping)
                  (events_of (show demo_ext (demo_git None) busy_editor 1
                                demo_uri None None None) demo_heap)).
    { eexists. vm_compute. do 2 right. left. reflexivity. }
    destruct H as (mapping & Hin).
    exact (proj1 (proj1 (rejected_editor_calls demo_ext (demo_git None)
                           busy_editor 1 demo_uri None None None demo_heap)
                        mapping Hin eq_refl)).
Defined.

(** The picker of the commit that deletes the file offers the revision
    before the deletion and no Open File. *)
Lemma file_items_of_picker_witness :
  exists items options,
    In (ShowQuickPick items options)
       (events_of (show demo_ext (demo_git None) demo_editor 5 demo_uri None
                     None None) session_heap) /\
    exists body,
      items = body /\
      filter isOpenRevision body
      = [OpenCommitFileRevisionCommandQuickPickItem demo_ext removal None] /\
      filter isOpenFile body = [].
Proof.
  assert (H : exists items options,
             In (ShowQuickPick items options)
                (events_of (show demo_ext (demo_git None) demo_editor 5
                              demo_uri None None None) session_heap)).
  { eexists; eexists. vm_compute. do 2 right. left. reflexivity. }
  destruct H as (items & options & Hin).
  exists items, options. split; [exact Hin|].
  destruct (file_items_of_picker demo_ext (demo_git None) demo_editor 5
              demo_uri None None None session_heap items options Hin)
    as (shown & body & Hshown & Hitems & Hrev & Hfile).
  injection Hshown as <-.
  exists body. split; [exact Hitems|]. split; [exact Hrev | exact Hfile].
Defined.

(** The branch is asked for the second commit, which has a working file
    and a remote on GitHub. *)
Lemma getBranch_only_when_needed_witness :
  In (GetBranch "/repo")
     (events_of (show demo_ext (demo_git None) demo_editor 1 demo_uri None
                   None None) demo_heap) /\
  exists shown wf,
    shownCommit demo_ext (demo_git None) demo_heap 1 = Some shown /\
    providedRemotes (demo_git None) (demo_heap shown) <> [] /\
    workingFileName (demo_heap shown) = Some wf.
Proof.
  assert (Hin : In (GetBranch "/repo")
                   (events_of (show demo_ext (demo_git None) demo_editor 1
                                 demo_uri None None None) demo_heap)).
  { vm_compute. right. left. reflexivity. }
  split; [exact Hin|].
  destruct (getBranch_only_when_needed demo_ext (demo_git None) demo_editor 1
              demo_uri None None None demo_heap "/repo" Hin)
    as (shown & wf & Hshown & Hprov & Hwf & _).
  exists shown, wf. split; [exact Hshown|]. split; [exact Hprov | exact Hwf].
Defined.

(** The remote items of the second commit list the one remote that has a
    provider. *)
Lemma remote_items_of_picker_witness :
  exists items options,
    In (ShowQuickPick items options)
       (events_of (show demo_ext (demo_git None) demo_editor 1 demo_uri None
                     None None) demo_heap) /\
    forall item,
      In item items -> isRemotesItem item = true ->
      exists resource,
        item = MkOpenRemotesCommandQuickPickItem
                 [{| provider := Some "github" |}] resource None.
Proof.
  assert (H : exists items options,
             In (ShowQuickPick items options)
                (events_of (show demo_ext (demo_git None) demo_editor 1
                              demo_uri None None None) demo_heap)).
  { eexists; eexists. vm_compute. do 3 right. left. reflexivity. }
  destruct H as (items & options & Hin).
  exists items, options. split; [exact Hin|].
  destruct (remote_items_of_picker demo_ext (demo_git None) demo_editor 1
              demo_uri None None None demo_heap items options Hin)
    as (shown & body & Hshown & Hitems & Hremote).
  injection Hshown as <-. cbn [goBackItems app] in Hitems. subst body.
  intros item Hitem Hr.
  destruct (Hremote item Hitem Hr) as (resource & Heq & _).
  exists resource. exact Heq.
Defined.

(** A checkout without a current branch. *)
Lemma missing_branch_rejects_witness :
  result_of (show demo_ext detached_git demo_editor 1 demo_uri None None None)
            demo_heap = Throw /\
  events_of (show demo_ext detached_git demo_editor 1 demo_uri None None None)
            demo_heap = [GetRemotes "/repo"; GetBranch "/repo"].
Proof.
  split; [|reflexivity].
  exact (proj1 (missing_branch_rejects demo_ext detached_git demo_editor 1
                  demo_uri None None None demo_heap 1 "a.ts"
                  eq_refl ltac:(vm_compute; discriminate) eq_refl
                  ltac:(vm_compute; discriminate)
                  ltac:(vm_compute; discriminate) eq_refl)).
Defined.

(** The second commit with the whole history: the previous revision is
    known to the log. *)
Lemma previous_uses_cached_link_witness :
  stale_previous demo_heap (Some full_log) 1 = false /\
  exists log c p,
    run (invoke demo_ext (demo_git None)
           (PreviousCommandFn 1 demo_uri None (Some full_log))) demo_heap
    = (Ok (KeyItem (showCommitFileDetailsKey (CommitPreviousUri (demo_heap c))
                      (Some log) p None)),
       {| heap := demo_heap; trace := [] |}).
Proof.
  split; [reflexivity|].
  destruct (previous_uses_cached_link demo_ext (demo_git None) 1 demo_uri None
              (Some full_log) demo_heap eq_refl)
    as (log & c & p & _ & _ & _ & Hrun).
  exists log, c, p. exact Hrun.
Defined.

(** The first commit with the whole history: the next revision is known
    to the log. *)
Lemma next_uses_cached_link_witness :
  stale_next demo_heap (Some full_log) 0 = false /\
  exists log c n,
    run (invoke demo_ext (demo_git None)
           (NextCommandFn 0 demo_uri None (Some full_log))) demo_heap
    = (Ok (KeyItem (showCommitFileDetailsKey (CommitNextUri (demo_heap c))
                      (Some log) n None)),
       {| heap := demo_heap; trace := [] |}).
Proof.
  split; [reflexivity|].
  destruct (next_uses_cached_link demo_ext (demo_git None) 0 demo_uri None
              (Some full_log) demo_heap eq_refl)
    as (log & c & n & _ & _ & _ & Hrun).
  exists log, c, n. exact Hrun.
Defined.

(** The commit [b2], held as an object of its own (6) that knows [c3] as
    its next commit, opened without a file log: the fresh log holds object
    1 for [b2], whose next link is empty, and the closure writes the link
    to [c3] into it; its sha and previous link stay, and the object shown
    and the first commit are as before. *)
Lemma previous_copies_next_link_witness :
  refetchedCommit demo_ext full_log (Session.relinked_heap 6) = Some 1%nat /\
  nextSha (Session.relinked_heap 1) = None /\
  nextFileName (Session.relinked_heap 1) = None /\
  nextSha (heap_after (invoke demo_ext (demo_git None)
                         (PreviousCommandFn 6 demo_uri None None))
             Session.relinked_heap 1)
  = Some "c3" /\
  nextFileName (heap_after (invoke demo_ext (demo_git None)
                              (PreviousCommandFn 6 demo_uri None None))
                  Session.relinked_heap 1)
  = Some "a.ts" /\
  previousSha (heap_after (invoke demo_ext (demo_git None)
                             (PreviousCommandFn 6 demo_uri None None))
                 Session.relinked_heap 1)
  = Some "a1" /\
  heap_after (invoke demo_ext (demo_git None)
                (PreviousCommandFn 6 demo_uri None None))
    Session.relinked_heap 6
  = Session.relinked_heap 6 /\
  heap_after (invoke demo_ext (demo_git None)
                (PreviousCommandFn 6 demo_uri None None))
    Session.relinked_heap 0
  = Session.relinked_heap 0.
Proof.
  destruct (proj1 (previous_copies_next_link demo_ext (demo_git None) 6 demo_uri
                     None None Session.relinked_heap eq_refl)
                  full_log 1%nat eq_refl eq_refl)
    as (Hc & Hp & _ & Hrest).
  split; [reflexivity|]. split; [reflexivity|]. split; [reflexivity|].
  split; [exact (f_equal nextSha Hc)|].
  split; [exact (f_equal nextFileName Hc)|].
  split; [exact Hp|].
  split.
  - exact (Hrest 6%nat ltac:(vm_compute; discriminate)).
  - exact (Hrest 0%nat ltac:(vm_compute; discriminate)).
Defined.

(** The second commit gets the third as its next commit. *)
Lemma next_records_found_commit_witness :
  nextSha (heap_after (invoke demo_ext (demo_git None)
                         (NextCommandFn 1 demo_uri None (Some truncated_log)))
             demo_heap 1)
  = Some "c3" /\
  nextFileName (heap_after (invoke demo_ext (demo_git None)
                              (NextCommandFn 1 demo_uri None (Some truncated_log)))
                  demo_heap 1)
  = Some "a.ts".
Proof.
  destruct (proj1 (next_records_found_commit demo_ext (demo_git None) 1 demo_uri
                     None (Some truncated_log) demo_heap eq_refl)
                  4 eq_refl ltac:(vm_compute; discriminate))
    as (Hshown & _).
  split; [exact (f_equal nextSha Hshown) | exact (f_equal nextFileName Hshown)].
Defined.

(** The next key pressed twice on the second commit, whose log entry is
    the commit object: one query, then none. *)
Lemma next_link_is_cached_witness :
  events_of (invoke demo_ext (demo_git None)
               (NextCommandFn 1 demo_uri None (Some own_log))) demo_heap
  = [FindNextCommit "/repo" "/repo/a.ts" "b2"] /\
  events_of (invoke demo_ext (demo_git None)
               (NextCommandFn 1 demo_uri None (Some own_log)))
            (heap_after (invoke demo_ext (demo_git None)
                           (NextCommandFn 1 demo_uri None (Some own_log)))
               demo_heap)
  = [].
Proof.
  destruct (next_link_is_cached demo_ext (demo_git None) 1 demo_uri None own_log
              demo_heap 4 eq_refl eq_refl eq_refl
              ltac:(vm_compute; discriminate))
    as (Hfirst & Hsecond & _).
  split; [exact Hfirst | exact Hsecond].
Defined.

End CommitFileDetailsRun.

(** ** The run of the editor command *)

Module DiffLineWithPreviousRun.

Import DiffLineWithPrevious DiffLineWithPreviousSpec.
Local Open Scope list_scope.
Local Open Scope Z_scope.

Section Facts.

Variable ext : Externals.
Variable host : Host.

(** [execute], by the answers of the host, down to the diff stage. *)
Lemma execute_closed (editor : TextEditor) uri commit line :
  execute ext host editor uri commit line []
  = match uriOrDocument editor uri with
    | None => (Ok Undefined, [])
    | Some u =>
        let gitUri := GitUri_fromUri ext u in
        let l := lineOrActive editor line in
        if needsBlame ext commit then
          if l - offset gitUri <? 0 then (Ok Undefined, [])
          else
            match blameAnswer host gitUri l with
            | Throw =>
                (showErrorMessage host unableToOpenDiff_error,
                 [blameQuery gitUri l;
                  LoggerError logger_prefix
                    (cat ["getBlameForLine(";
                          number_toString ext (l - offset gitUri); ")"]);
                  ShowErrorMessage unableToOpenDiff_error])
            | Ok None =>
                (showWarningMessage host unableToOpenDiff_warning,
                 [blameQuery gitUri l;
                  ShowWarningMessage unableToOpenDiff_warning])
            | Ok (Some blame) =>
                let target := blameTarget ext gitUri blame l in
                if isUncommitted ext (fst target) then
                  let dispatch :=
                    DiffWithWorking (CommitUri (fst target))
                      (previousRevision ext (fst target))
                      (blame_line blame + 1 + offset gitUri) in
                  (executeCommand host dispatch,
                   [blameQuery gitUri l; ExecuteCommand dispatch])
                else
                  openDiff ext host gitUri (fst target) (snd target)
                    [blameQuery gitUri l]
            end
        else
          match commit with
          | Some c => openDiff ext host gitUri c l []
          | None => (Ok Undefined, [])
          end
    end.
Proof.
  unfold execute. destruct (uriOrDocument editor uri) as [u|]; [|reflexivity].
  cbv zeta.
  set (gitUri := GitUri_fromUri ext u). set (l := lineOrActive editor line).
  assert (Hafter :
    forall blame pre,
      afterBlame ext host gitUri blame l pre
      = let target := blameTarget ext gitUri blame l in
        if isUncommitted ext (fst target) then
          let dispatch :=
            DiffWithWorking (CommitUri (fst target))
              (previousRevision ext (fst target))
              (blame_line blame + 1 + offset gitUri) in
          (Ok (Return (executeCommand host dispatch)),
           pre ++ [ExecuteCommand dispatch])
        else (Ok (Resolved (fst target) (snd target)), pre)).
  { intros blame pre. unfold afterBlame.
    destruct (blameTarget ext gitUri blame l) as [c l']. cbn [fst snd].
    destruct (isUncommitted ext c); reflexivity. }
  assert (Hblame :
    bind (resolveByBlame ext host gitUri l)
         (fun blamed =>
            match blamed with
            | Return p => settle p
            | Resolved c l => openDiff ext host gitUri c l
            end) []
    = if l - offset gitUri <? 0 then (Ok Undefined, [])
      else
        match blameAnswer host gitUri l with
        | Throw =>
            (showErrorMessage host unableToOpenDiff_error,
             [blameQuery gitUri l;
              LoggerError logger_prefix
                (cat ["getBlameForLine(";
                      number_toString ext (l - offset gitUri); ")"]);
              ShowErrorMessage unableToOpenDiff_error])
        | Ok None =>
            (showWarningMessage host unableToOpenDiff_warning,
             [blameQuery gitUri l; ShowWarningMessage unableToOpenDiff_warning])
        | Ok (Some blame) =>
            let target := blameTarget ext gitUri blame l in
            if isUncommitted ext (fst target) then
              let dispatch :=
                DiffWithWorking (CommitUri (fst target))
                  (previousRevision ext (fst target))
                  (blame_line blame + 1 + offset gitUri) in
              (executeCommand host dispatch,
               [blameQuery gitUri l; ExecuteCommand dispatch])
            else
              openDiff ext host gitUri (fst target) (snd target)
                [blameQuery gitUri l]
        end).
  { unfold resolveByBlame, blameAnswer, blameQuery.
    destruct (l - offset gitUri <? 0); [reflexivity|].
    cbv beta iota delta [call start settle log bind try_catch ret].
    destruct (getBlameForLine host _ _ _ _) as [[blame|]|]; cbn [app];
      try reflexivity.
    rewrite Hafter. cbv zeta.
    destruct (isUncommitted ext _); reflexivity. }
  destruct commit as [c|].
  - destruct (needsBlame ext (Some c)); [apply Hblame | reflexivity].
  - cbn [needsBlame]. apply Hblame.
Qed.

(** Every run of [execute], path by path. *)
Ltac execute_paths :=
  unfold events_of, result_of; rewrite execute_closed;
  destruct (uriOrDocument _ _) as [u|] eqn:Huri; cbv zeta;
  [ destruct (needsBlame ext _) eqn:Hneeds;
    [ destruct (_ <? 0) eqn:Hline;
      [ | destruct (blameAnswer host _ _) as [[blame|]|] eqn:Hblame;
          [ destruct (isUncommitted ext _) eqn:Hunc | | ] ]
    | try match goal with
          | |- context [match ?c with Some _ => _ | None => _ end] =>
              destruct c as [given|] eqn:Hgiven
          end ]
  | ];
  rewrite ?openDiff_run; cbv zeta;
  try (destruct (currentFileAnswer host _) as [v0|] eqn:Hv0;
       [ destruct (commitFileAnswer ext host _) as [v1|] eqn:Hv1;
         [ destruct (executeCommand host (Diff _ _ _)) as [r1|] eqn:Hdiff;
           [ destruct (executeCommand host (RevealLine _ _)) as [r2|] eqn:Hreveal
           | ]
         | ]
       | ]);
  cbn [fst snd app].

Lemma dispatched_app a b :
  dispatched (a ++ b) = dispatched a ++ dispatched b.
Proof. induction a as [|[] a IH]; cbn; rewrite ?IH; reflexivity. Qed.

(** X14.  Whatever the host answers, one invocation dispatches nothing, or
    [DiffWithWorking] alone, or [Diff] alone, or [Diff] followed by
    [RevealLine] centred: never a diff with the working tree together with
    a diff of revisions, and never a line revealed without a diff. *)
Theorem dispatch_shapes (editor : TextEditor) uri commit line :
  Dispatches (dispatched (events_of (execute ext host editor uri commit line))).
Proof.
  execute_paths; cbn [dispatched blameQuery currentFileQuery commitFileQuery app];
    constructor.
Qed.

Ltac split_in H :=
  cbn [In app] in H;
  repeat match goal with
         | H' : _ \/ _ |- _ => destruct H' as [H'|H']
         | H' : False |- _ => contradiction
         end.

(** X15.  The command does nothing at all, and returns [undefined], in
    exactly two cases: there is neither a uri nor a document, or the blame
    is needed and the line lies above the start of the blamed range. *)
Theorem silent_exactly_when (editor : TextEditor) uri commit line :
  (events_of (execute ext host editor uri commit line) = [] <->
   (uriOrDocument editor uri = None \/
    exists u,
      uriOrDocument editor uri = Some u /\
      needsBlame ext commit = true /\
      lineOrActive editor line - offset (GitUri_fromUri ext u) < 0)) /\
  (events_of (execute ext host editor uri commit line) = [] ->
   result_of (execute ext host editor uri commit line) = Ok Undefined).
Proof.
  execute_paths; cbn [blameQuery currentFileQuery commitFileQuery];
    (split; [split|]); try discriminate; try reflexivity; auto;
    try (intros _; right; exists u; repeat split;
         apply Z.ltb_lt; assumption);
    try (intros [Hnone | (u' & [= <-] & Hn & Hlt)]; try discriminate;
         try congruence;
         apply Z.ltb_lt in Hlt; congruence).
  all: try (cbn [needsBlame] in Hneeds; discriminate).
Qed.

(** X16.  A line number of zero counts as no line: the command then runs
    exactly as when no line is given.  So for a supplied commit whose diff
    opens, the line revealed is the active line of the editor, not line
    zero. *)
Theorem line_zero_is_no_line (editor : TextEditor) uri commit :
  (forall w,
     execute ext host editor uri commit (Some 0) w
     = execute ext host editor uri commit None w) /\
  (forall u c v0 v1 r,
     uriOrDocument editor uri = Some u ->
     commit = Some c ->
     GitProvider_isUncommitted ext (sha c) = false ->
     let gitUri := GitUri_fromUri ext u in
     currentFileAnswer host gitUri = Ok v0 ->
     commitFileAnswer ext host c = Ok v1 ->
     executeCommand host
       (Diff (Uri_file v1) (Uri_file v0) (diffTitle ext gitUri c)) = Ok r ->
     dispatched (events_of (execute ext host editor uri commit (Some 0)))
     = [Diff (Uri_file v1) (Uri_file v0) (diffTitle ext gitUri c);
        RevealLine (active_line editor) "center"]).
Proof.
  split; [reflexivity|].
  intros u c v0 v1 r Hu -> Hc gitUri H0 H1 Hd.
  unfold events_of. rewrite execute_closed, Hu. cbv zeta.
  cbn [needsBlame]. rewrite Hc. fold gitUri.
  rewrite openDiff_run. cbv zeta. rewrite H0, H1, Hd.
  cbn [lineOrActive Z.eqb].
  destruct (executeCommand host (RevealLine (active_line editor) "center"));
    cbn [fst snd app currentFileQuery commitFileQuery dispatched]; reflexivity.
Qed.

(** X17.  When the blame query is rejected, the command logs the query
    with the blame line, shows the error message and dispatches nothing;
    its result is that of the error message. *)
Theorem rejected_blame_is_reported (editor : TextEditor) uri commit line u :
  uriOrDocument editor uri = Some u ->
  needsBlame ext commit = true ->
  let gitUri := GitUri_fromUri ext u in
  let l := lineOrActive editor line in
  0 <= l - offset gitUri ->
  blameAnswer host gitUri l = Throw ->
  result_of (execute ext host editor uri commit line)
  = showErrorMessage host unableToOpenDiff_error /\
  events_of (execute ext host editor uri commit line)
  = [blameQuery gitUri l;
     LoggerError logger_prefix
       (cat ["getBlameForLine("; number_toString ext (l - offset gitUri); ")"]);
     ShowErrorMessage unableToOpenDiff_error] /\
  dispatched (events_of (execute ext host editor uri commit line)) = [].
Proof.
  intros Hu Hn gitUri l Hl Hb.
  unfold events_of, result_of. rewrite execute_closed, Hu. cbv zeta.
  fold gitUri l. rewrite Hn.
  destruct (Z.ltb_spec (l - offset gitUri) 0); [lia|].
  rewrite Hb. repeat split.
Qed.

(** X18.  A committed commit that is supplied is taken as it is: the
    blame is never asked, no diff with the working tree is dispatched and
    no warning shown; the first calls are the two file resolutions. *)
Theorem supplied_commit_skips_blame (editor : TextEditor) uri c line :
  GitProvider_isUncommitted ext (sha c) = false ->
  let events := events_of (execute ext host editor uri (Some c) line) in
  filter isBlameQuery events = [] /\
  (forall target previous l,
     ~ In (ExecuteCommand (DiffWithWorking target previous l)) events) /\
  (forall text, ~ In (ShowWarningMessage text) events) /\
  (forall u,
     uriOrDocument editor uri = Some u ->
     exists rest,
       events = [currentFileQuery (GitUri_fromUri ext u);
                 commitFileQuery ext c] ++ rest).
Proof.
  intros Hc events. subst events.
  execute_paths;
    try (cbn [needsBlame] in Hneeds; congruence);
    try injection Hgiven as <-;
    cbn [filter isBlameQuery currentFileQuery commitFileQuery];
    (split; [reflexivity|]);
    (split; [intros ? ? ? Hin; split_in Hin; discriminate|]);
    (split; [intros ? Hin; split_in Hin; discriminate|]);
    intros u' Hu'; try discriminate Hu'; injection Hu' as <-;
    eexists; reflexivity.
Qed.

(** X19.  A message ends the run: it is the last call, the only message,
    and its answer is the result.  A warning comes right after the blame
    query, with nothing dispatched; an error message comes right after an
    entry in the log. *)
Theorem message_ends_the_run (editor : TextEditor) uri commit line e :
  In e (events_of (execute ext host editor uri commit line)) ->
  isMessage e = true ->
  exists before,
    events_of (execute ext host editor uri commit line) = before ++ [e] /\
    filter isMessage before = [] /\
    match e with
    | ShowWarningMessage text =>
        text = unableToOpenDiff_warning /\
        result_of (execute ext host editor uri commit line)
        = showWarningMessage host text /\
        exists query, before = [query] /\ isBlameQuery query = true
    | ShowErrorMessage text =>
        text = unableToOpenDiff_error /\
        result_of (execute ext host editor uri commit line)
        = showErrorMessage host text /\
        exists earlier entry,
          before = earlier ++ [LoggerError logger_prefix entry]
    | _ => False
    end.
Proof.
  execute_paths; cbn [blameQuery currentFileQuery commitFileQuery];
    intros Hin Hmsg; split_in Hin; subst e; try discriminate Hmsg;
    match goal with
    | |- exists before, ?events = _ /\ _ => exists (removelast events)
    end;
    cbn [removelast app filter isMessage];
    (split; [reflexivity|]); (split; [reflexivity|]);
    (split; [reflexivity|]); (split; [reflexivity|]);
    first [ eexists; split; reflexivity
          | match goal with
            | |- exists earlier entry, ?before = _ =>
                exists (removelast before); eexists;
                cbn [removelast app]; reflexivity
            end ].
Qed.

End Facts.

Import Demo Session.

(** An editor without a document, and no uri. *)
Lemma silent_exactly_when_witness :
  events_of (execute demo_ext (demo_host None) empty_editor None None None) = [] /\
  result_of (execute demo_ext (demo_host None) empty_editor None None None)
  = Ok Undefined.
Proof.
  pose proof (silent_exactly_when demo_ext (demo_host None) empty_editor None
                None None) as [Hiff Hres].
  assert (Hev : events_of (execute demo_ext (demo_host None) empty_editor None
                             None None) = [])
    by exact (proj2 Hiff (or_introl eq_refl)).
  split; [exact Hev | exact (Hres Hev)].
Defined.

(** The commit [a1] is supplied with line 0 while the cursor is on line 7. *)
Lemma line_zero_is_no_line_witness :
  dispatched
    (events_of (execute demo_ext (demo_host None) demo_editor None
                  (Some committed) (Some 0)))
  = [Diff (Uri_file "/tmp/a1") (Uri_file "/tmp/b2") "a.ts (a1) ↔ a.ts (b2)";
     RevealLine 7 "center"].
Proof.
  exact (proj2 (line_zero_is_no_line demo_ext (demo_host None) demo_editor None
                  (Some committed))
               (Uri_file "/repo/a.ts") committed "/tmp/b2" "/tmp/a1" Undefined
               eq_refl eq_refl eq_refl eq_refl eq_refl eq_refl).
Defined.

(** A blame that fails. *)
Lemma rejected_blame_is_reported_witness :
  result_of (execute demo_ext unblamed_host demo_editor None None None)
  = Ok (HostValue "closed") /\
  dispatched (events_of (execute demo_ext unblamed_host demo_editor None None
                           None)) = [].
Proof.
  pose proof
    (rejected_blame_is_reported demo_ext unblamed_host demo_editor None None
       None (Uri_file "/repo/a.ts") eq_refl eq_refl
       ltac:(vm_compute; discriminate) eq_refl)
    as [Hres [_ Hdis]].
  split; [exact Hres | exact Hdis].
Defined.

(** The commit [a1] is supplied. *)
Lemma supplied_commit_skips_blame_witness :
  filter isBlameQuery
    (events_of (execute demo_ext (demo_host None) demo_editor None
                  (Some committed) None))
  = [].
Proof.
  exact (proj1 (supplied_commit_skips_blame demo_ext (demo_host None)
                  demo_editor None committed None eq_refl)).
Defined.

(** A file without blame: the warning is the last call. *)
Lemma message_ends_the_run_witness :
  exists before,
    events_of (execute demo_ext (demo_host None) demo_editor None None None)
    = before ++ [ShowWarningMessage unableToOpenDiff_warning] /\
    filter isMessage before = [].
Proof.
  assert (Hin : In (ShowWarningMessage unableToOpenDiff_warning)
                   (events_of (execute demo_ext (demo_host None) demo_editor
                                 None None None))).
  { vm_compute. right. left. reflexivity. }
  destruct (message_ends_the_run demo_ext (demo_host None) demo_editor None
              None None _ Hin eq_refl)
    as (before & Hev & Hnone & _).
  exists before. split; [exact Hev | exact Hnone].
Defined.

End DiffLineWithPreviousRun.
